(** * Person/Mistakes API: a shallow embedding of [main.py] and [models/]

    The service keeps two module-level dicts, [persons] and [mistakes], keyed
    by UUID, and exposes create / list / get / patch / delete handlers over
    each, plus a health report.  Records are Pydantic models; a handler
    builds them from keyword dicts (the call [Model] with a dict unpacked
    into keywords) and turns them back into dicts ([model_dump]).

    The embedding follows that shape:
    - Python values that travel through request bodies and [model_dump]
      dicts are the inductive [pyval]; a dict with string keys is a
      [gmap string pyval];
    - each model class is a record in a module of its name, with the
      validation that constructing the model runs and the [model_dump] it offers;
    - the two stores are [gmap UUID _]; [list(d.values())] is the list of
      the map's values, in the map's order rather than insertion order;
    - [uuid4()], [datetime.utcnow()] and the host-name resolution are read
      from feeds carried by the state, one reading per call;
    - handlers live in a state-and-exception monad in which, as in Python,
      the state reached when an exception is raised is kept.

    [models/person.py] does not load as it stands: line 16 lacks the comma
    after [description=...], which the parser refuses, and line 11 uses
    [Literal] without importing it.  The Person models below are the field
    declarations of that file, read as the file would load with the comma
    and the import supplied.  What is stated of the Person routes as a
    property of the service reads [main.py] alone and holds whatever the
    validation of these models computes; a statement that unfolds them shows
    where the declarations depart from what is asked of them, and no more. *)

From stdpp Require Import gmap strings list fin_maps.

Set Warnings "-register-all".
Local Open Scope string_scope.

(** ** Atoms *)

(** A UUID is its 128-bit integer value. *)
Abbreviation UUID := N (only parsing).

(** [datetime.date] *)
Record date := mk_date { d_year : N; d_month : N; d_day : N }.

(** [datetime.datetime], naive (no tzinfo), as [datetime.utcnow()] returns it. *)
Record datetime := mk_datetime {
  year : N; month : N; day : N;
  hour : N; minute : N; second : N; microsecond : N
}.

#[global] Instance date_eq_dec : EqDecision date.
Proof. solve_decision. Defined.
#[global] Instance datetime_eq_dec : EqDecision datetime.
Proof. solve_decision. Defined.

(** Decimal rendering with leading zeros, ["%0<width>d"]. *)
Definition digit (n : N) : Ascii.ascii := Ascii.ascii_of_N (48 + n mod 10).

Fixpoint zfill (width : nat) (n : N) : string :=
  match width with
  | O => ""
  | S w => zfill w (n / 10) +:+ String (digit n) ""
  end.

(** [date.isoformat()], which is also [str(date)]. *)
Definition date_isoformat (d : date) : string :=
  zfill 4 (d_year d) +:+ "-" +:+ zfill 2 (d_month d) +:+ "-" +:+ zfill 2 (d_day d).

(** [datetime.isoformat()] of a naive datetime: the fraction is printed only
    when the microsecond field is not zero. *)
Definition isoformat (t : datetime) : string :=
  zfill 4 (year t) +:+ "-" +:+ zfill 2 (month t) +:+ "-" +:+ zfill 2 (day t)
  +:+ "T" +:+ zfill 2 (hour t) +:+ ":" +:+ zfill 2 (minute t) +:+ ":" +:+ zfill 2 (second t)
  +:+ (if decide (microsecond t = 0%N) then "" else "." +:+ zfill 6 (microsecond t)).

(** ** Python values *)

(** The values found in request bodies and in [model_dump] dicts: [None],
    strings, the typed atoms Pydantic produces, lists and string-keyed
    dicts.  JSON numbers and booleans are left out: no field of the models
    below is declared with a numeric or boolean type. *)
Inductive pyval :=
| VNone
| VStr (s : string)
| VUuid (u : UUID)
| VDate (d : date)
| VDatetime (t : datetime)
| VList (l : list pyval)
| VDict (d : gmap string pyval).

Abbreviation pydict := (gmap string pyval).

(** [v == s] for a string [s]: values of another type compare unequal. *)
Definition py_eq_str (v : pyval) (s : string) : bool :=
  match v with
  | VStr s' => bool_decide (s' = s)
  | _ => false
  end.

(** ** The libraries underneath

    Parsing of UUID and date text, and the [EmailStr] check (the
    email-validator package, which returns the address in normal form), are
    not part of the repository.  They are taken as an interface; the one
    law assumed is that a normalised address validates to itself. *)
Class Lib := {
  parse_uuid : string → option UUID;
  parse_date : string → option date;
  validate_email : string → option string;
  validate_email_idem : ∀ s s', validate_email s = Some s' → validate_email s' = Some s'
}.

(** ** Exceptions and the handler monad *)

Inductive exn :=
| HTTPException (status_code : nat) (detail : string)
| RequestValidationError        (* FastAPI: the body does not validate; 422 *)
| ValidationError               (* pydantic, raised inside a handler *)
| AttributeError (name : string)
| TypeError
| KeyError
| gaierror.                     (* socket: the host name does not resolve *)

#[global] Instance exn_eq_dec : EqDecision exn.
Proof. solve_decision. Defined.

(** The status FastAPI answers with when [e] leaves a handler. *)
Definition http_status (e : exn) : nat :=
  match e with
  | HTTPException c _ => c
  | RequestValidationError => 422
  | _ => 500
  end.

(** ** The world a request runs in

    What the process reads from outside: the values [uuid4()] and
    [datetime.utcnow()] will return, in call order, and the address the host
    name resolves to ([None]: resolution fails). *)
Record World := mk_World {
  uuid4_feed : nat → UUID;
  utcnow_feed : nat → datetime;
  host_ip : option string
}.

(** [uuid4()] *)
Definition uuid4 (w : World) : UUID * World :=
  (uuid4_feed w 0,
   {| uuid4_feed := λ n, uuid4_feed w (S n); utcnow_feed := utcnow_feed w; host_ip := host_ip w |}).

(** [datetime.utcnow()] *)
Definition utcnow (w : World) : datetime * World :=
  (utcnow_feed w 0,
   {| uuid4_feed := uuid4_feed w; utcnow_feed := λ n, utcnow_feed w (S n); host_ip := host_ip w |}).

(** ** Field validation

    Pydantic validates the fields of a model in declaration order and
    collects the errors: a failing field does not stop the later ones, so a
    [default_factory] further down is still called.  A validator therefore
    threads the world and returns [None] when some field failed. *)
Definition V (A : Type) : Type := World → option A * World.

Section validators.
Context `{Lib}.

(** [str] *)
Definition as_str (v : pyval) : option string :=
  match v with VStr s => Some s | _ => None end.

(** [UUID]: an instance, or its text *)
Definition as_uuid (v : pyval) : option UUID :=
  match v with VUuid u => Some u | VStr s => parse_uuid s | _ => None end.

(** [date]: an instance, or its text *)
Definition as_date (v : pyval) : option date :=
  match v with VDate d => Some d | VStr s => parse_date s | _ => None end.

(** [datetime]: an instance.  No request model declares a datetime field,
    and the dicts given to the read models carry the instances that
    [model_dump] put there. *)
Definition as_datetime (v : pyval) : option datetime :=
  match v with VDatetime t => Some t | _ => None end.

(** [EmailStr] *)
Definition as_email (v : pyval) : option string :=
  match v with VStr s => validate_email s | _ => None end.

(** [Literal[...]] over strings *)
Definition as_literal (allowed : list string) (v : pyval) : option string :=
  match v with
  | VStr s => if decide (s ∈ allowed) then Some s else None
  | _ => None
  end.

(** [Optional[T]] *)
Definition optional {A} (f : pyval → option A) (v : pyval) : option (option A) :=
  match v with VNone => Some None | _ => Some <$> f v end.

(** A field declared with [...]: the key must be there. *)
Definition required {A} (f : pyval → option A) (o : option pyval) : option A :=
  o ≫= f.

(** A field declared with a default: the default is taken unvalidated. *)
Definition with_default {A} (dflt : A) (f : pyval → option A) (o : option pyval) : option A :=
  match o with None => Some dflt | Some v => f v end.

(** A field declared with [default_factory]: called only when the key is
    missing. *)
Definition with_default_factory {A} (factory : World → A * World)
    (f : pyval → V A) (o : option pyval) : V A := λ w,
  match o with
  | None => let '(a, w') := factory w in (Some a, w')
  | Some v => f v w
  end.

(** A validator that reads nothing from the world. *)
Definition pure {A} (f : pyval → option A) : pyval → V A := λ v w, (f v, w).

(** A field of an update model, [Optional[T] = Field(None)], with the
    record of whether the body set it ([model_fields_set]): [None] is
    unset, [Some x] is set to [x]. *)
Definition settable {A} (f : pyval → option A) (o : option pyval) : option (option A) :=
  match o with None => Some None | Some v => Some <$> f v end.

(** [List[T]]: every item is validated, in order. *)
Fixpoint each {A} (f : pyval → V A) (l : list pyval) : V (list A) := λ w,
  match l with
  | [] => (Some [], w)
  | v :: l' =>
      let '(oa, w1) := f v w in
      let '(ol, w2) := each f l' w1 in
      (a ← oa; r ← ol; Some (a :: r), w2)
  end.

Definition as_list {A} (f : pyval → V A) (v : pyval) : V (list A) := λ w,
  match v with VList l => each f l w | _ => (None, w) end.
End validators.

(** What [model_dump(exclude_unset=True)] does with one settable field. *)
Definition dump_set {A} (k : string) (enc : A → pyval) (x : option A) (d : pydict) : pydict :=
  match x with None => d | Some a => <[k := enc a]> d end.

Definition of_opt {A} (enc : A → pyval) (x : option A) : pyval :=
  match x with None => VNone | Some a => enc a end.

(** ** models/mistake.py *)

Module MistakeBase.
(** [fields_set_id] is the part of [model_fields_set] that can vary: whether
    [id] was given or came from the default factory.  The other six fields
    are required, hence always set. *)
Record t := mk {
  id : UUID;
  subject : string;
  key_concept : string;
  prompt : string;
  correct_answer : string;
  wrong_answer : string;
  reflection : string;
  fields_set_id : bool
}.

Definition validate `{Lib} (d : pydict) : V t := λ w,
  let '(oid, w) := with_default_factory uuid4 (pure as_uuid) (d !! "id") w in
  (i ← oid;
   s ← required as_str (d !! "subject");
   k ← required as_str (d !! "key_concept");
   p ← required as_str (d !! "prompt");
   c ← required as_str (d !! "correct_answer");
   x ← required as_str (d !! "wrong_answer");
   r ← required as_str (d !! "reflection");
   Some (mk i s k p c x r (bool_decide (is_Some (d !! "id")))),
   w).

(** A value offered where a [MistakeBase] is expected: a dict is validated. *)
Definition validate_val `{Lib} (v : pyval) : V t := λ w,
  match v with VDict d => validate d w | _ => (None, w) end.

Definition model_dump (m : t) : pydict :=
  <["id" := VUuid (id m)]>
  (<["subject" := VStr (subject m)]>
  (<["key_concept" := VStr (key_concept m)]>
  (<["prompt" := VStr (prompt m)]>
  (<["correct_answer" := VStr (correct_answer m)]>
  (<["wrong_answer" := VStr (wrong_answer m)]>
  (<["reflection" := VStr (reflection m)]> ∅)))))).

(** [model_dump(exclude_unset=True)], as it reaches a nested model. *)
Definition model_dump_exclude_unset (m : t) : pydict :=
  if fields_set_id m then model_dump m else delete "id" (model_dump m).
End MistakeBase.

(** [class MistakeCreate(MistakeBase)] adds no field. *)
Module MistakeCreate := MistakeBase.

Module MistakeUpdate.
Record t := mk {
  subject : option (option string);
  key_concept : option (option string);
  prompt : option (option string);
  correct_answer : option (option string);
  wrong_answer : option (option string);
  reflection : option (option string)
}.

Definition validate (d : pydict) : option t :=
  s ← settable (optional as_str) (d !! "subject");
  k ← settable (optional as_str) (d !! "key_concept");
  p ← settable (optional as_str) (d !! "prompt");
  c ← settable (optional as_str) (d !! "correct_answer");
  x ← settable (optional as_str) (d !! "wrong_answer");
  r ← settable (optional as_str) (d !! "reflection");
  Some (mk s k p c x r).

Definition model_dump_exclude_unset (u : t) : pydict :=
  dump_set "subject" (of_opt VStr) (subject u)
  (dump_set "key_concept" (of_opt VStr) (key_concept u)
  (dump_set "prompt" (of_opt VStr) (prompt u)
  (dump_set "correct_answer" (of_opt VStr) (correct_answer u)
  (dump_set "wrong_answer" (of_opt VStr) (wrong_answer u)
  (dump_set "reflection" (of_opt VStr) (reflection u) ∅))))).
End MistakeUpdate.

Module MistakeRead.
Record t := mk {
  id : UUID;
  subject : string;
  key_concept : string;
  prompt : string;
  correct_answer : string;
  wrong_answer : string;
  reflection : string;
  created_at : datetime;
  updated_at : datetime
}.

Definition validate `{Lib} (d : pydict) : V t := λ w,
  let '(oid, w) := with_default_factory uuid4 (pure as_uuid) (d !! "id") w in
  let '(oc, w) := with_default_factory utcnow (pure as_datetime) (d !! "created_at") w in
  let '(ou, w) := with_default_factory utcnow (pure as_datetime) (d !! "updated_at") w in
  (i ← oid;
   s ← required as_str (d !! "subject");
   k ← required as_str (d !! "key_concept");
   p ← required as_str (d !! "prompt");
   c ← required as_str (d !! "correct_answer");
   x ← required as_str (d !! "wrong_answer");
   r ← required as_str (d !! "reflection");
   ca ← oc;
   ua ← ou;
   Some (mk i s k p c x r ca ua),
   w).

Definition model_dump (m : t) : pydict :=
  <["id" := VUuid (id m)]>
  (<["subject" := VStr (subject m)]>
  (<["key_concept" := VStr (key_concept m)]>
  (<["prompt" := VStr (prompt m)]>
  (<["correct_answer" := VStr (correct_answer m)]>
  (<["wrong_answer" := VStr (wrong_answer m)]>
  (<["reflection" := VStr (reflection m)]>
  (<["created_at" := VDatetime (created_at m)]>
  (<["updated_at" := VDatetime (updated_at m)]> ∅)))))))).
End MistakeRead.

(** ** models/person.py

    The declarations of a file that is refused as written (the comma of
    line 16, the import of [Literal]): each class is embedded field by
    field as declared, which is how it would validate once the file
    loads. *)

(** [GradeLevel = Literal["K-5", "6-8", "9-12", "Undergrad", "Graduate", "Adult", "Other"]],
    with [Literal] read as [typing.Literal]. *)
Definition GradeLevel : list string :=
  ["K-5"; "6-8"; "9-12"; "Undergrad"; "Graduate"; "Adult"; "Other"].

(** [default_factory=list] *)
Definition new_list {A} (w : World) : list A * World := ([], w).

Module PersonBase.
(** The embedded collection is the field [mistake]. *)
Record t := mk {
  first_name : string;
  last_name : string;
  email : string;
  birth_date : option date;
  grade_level : option string;
  mistake : list MistakeBase.t
}.

Definition validate `{Lib} (d : pydict) : V t := λ w,
  let '(om, w) :=
    with_default_factory new_list (as_list MistakeBase.validate_val) (d !! "mistake") w in
  (f ← required as_str (d !! "first_name");
   l ← required as_str (d !! "last_name");
   e ← required as_email (d !! "email");
   b ← with_default None (optional as_date) (d !! "birth_date");
   g ← with_default None (optional (as_literal GradeLevel)) (d !! "grade_level");
   m ← om;
   Some (mk f l e b g m),
   w).

Definition model_dump (p : t) : pydict :=
  <["first_name" := VStr (first_name p)]>
  (<["last_name" := VStr (last_name p)]>
  (<["email" := VStr (email p)]>
  (<["birth_date" := of_opt VDate (birth_date p)]>
  (<["grade_level" := of_opt VStr (grade_level p)]>
  (<["mistake" := VList ((λ m, VDict (MistakeBase.model_dump m)) <$> mistake p)]> ∅))))).
End PersonBase.

(** [class PersonCreate(PersonBase)] adds no field. *)
Module PersonCreate := PersonBase.

Module PersonUpdate.
(** [grade_level] is declared [Optional[str]] here, not [Optional[GradeLevel]]. *)
Record t := mk {
  first_name : option (option string);
  last_name : option (option string);
  email : option (option string);
  birth_date : option (option date);
  grade_level : option (option string);
  mistake : option (option (list MistakeBase.t))
}.

(** [Optional[List[MistakeBase]] = Field(None)] *)
Definition validate_mistake `{Lib} (o : option pyval)
    : V (option (option (list MistakeBase.t))) := λ w,
  match o with
  | None => (Some None, w)
  | Some VNone => (Some (Some None), w)
  | Some v =>
      let '(ol, w') := as_list MistakeBase.validate_val v w in
      ((λ l, Some (Some l)) <$> ol, w')
  end.

Definition validate `{Lib} (d : pydict) : V t := λ w,
  let '(om, w) := validate_mistake (d !! "mistake") w in
  (f ← settable (optional as_str) (d !! "first_name");
   l ← settable (optional as_str) (d !! "last_name");
   e ← settable (optional as_email) (d !! "email");
   b ← settable (optional as_date) (d !! "birth_date");
   g ← settable (optional as_str) (d !! "grade_level");
   m ← om;
   Some (mk f l e b g m),
   w).

Definition model_dump_exclude_unset (u : t) : pydict :=
  dump_set "first_name" (of_opt VStr) (first_name u)
  (dump_set "last_name" (of_opt VStr) (last_name u)
  (dump_set "email" (of_opt VStr) (email u)
  (dump_set "birth_date" (of_opt VDate) (birth_date u)
  (dump_set "grade_level" (of_opt VStr) (grade_level u)
  (dump_set "mistake"
     (of_opt (λ l, VList ((λ m, VDict (MistakeBase.model_dump_exclude_unset m)) <$> l)))
     (mistake u) ∅))))).
End PersonUpdate.

Module PersonRead.
Record t := mk {
  first_name : string;
  last_name : string;
  email : string;
  birth_date : option date;
  grade_level : option string;
  mistake : list MistakeBase.t;
  id : UUID;
  created_at : datetime;
  updated_at : datetime
}.

Definition validate `{Lib} (d : pydict) : V t := λ w,
  let '(om, w) :=
    with_default_factory new_list (as_list MistakeBase.validate_val) (d !! "mistake") w in
  let '(oid, w) := with_default_factory uuid4 (pure as_uuid) (d !! "id") w in
  let '(oc, w) := with_default_factory utcnow (pure as_datetime) (d !! "created_at") w in
  let '(ou, w) := with_default_factory utcnow (pure as_datetime) (d !! "updated_at") w in
  (f ← required as_str (d !! "first_name");
   l ← required as_str (d !! "last_name");
   e ← required as_email (d !! "email");
   b ← with_default None (optional as_date) (d !! "birth_date");
   g ← with_default None (optional (as_literal GradeLevel)) (d !! "grade_level");
   m ← om;
   i ← oid;
   ca ← oc;
   ua ← ou;
   Some (mk f l e b g m i ca ua),
   w).

Definition model_dump (p : t) : pydict :=
  <["first_name" := VStr (first_name p)]>
  (<["last_name" := VStr (last_name p)]>
  (<["email" := VStr (email p)]>
  (<["birth_date" := of_opt VDate (birth_date p)]>
  (<["grade_level" := of_opt VStr (grade_level p)]>
  (<["mistake" := VList ((λ m, VDict (MistakeBase.model_dump m)) <$> mistake p)]>
  (<["id" := VUuid (id p)]>
  (<["created_at" := VDatetime (created_at p)]>
  (<["updated_at" := VDatetime (updated_at p)]> ∅)))))))).

(** [p.name]: the declared fields are the attributes, and any other name
    raises [AttributeError].  A model instance held by an attribute is
    given as the dict of its fields. *)
Definition getattr (p : t) (name : string) : exn + pyval :=
  match model_dump p !! name with
  | Some v => inr v
  | None => inl (AttributeError name)
  end.
End PersonRead.

(** ** models/health.py *)

Module Health.
(** Modelled from the spec: [models/health.py] is not among the sources.
    The record has the six fields [make_health] passes, with the types of
    the arguments it passes them. *)
Record t := mk {
  status : nat;
  status_message : string;
  timestamp : string;
  ip_address : string;
  echo : option string;
  path_echo : option string
}.
End Health.

(** ** main.py: state and effects *)

(** The two module-level dicts, and the world. *)
Record State := mk_State {
  persons : gmap UUID PersonRead.t;
  mistakes : gmap UUID MistakeRead.t;
  world : World
}.

(** Expressions that may raise but touch no state. *)
#[global] Instance exn_ret : MRet (sum exn) := λ A a, inr a.
#[global] Instance exn_bind : MBind (sum exn) := λ A B f m,
  match m with inl e => inl e | inr a => f a end.

(** Handlers: the state reached when an exception is raised is kept. *)
Definition M (A : Type) : Type := State → (exn + A) * State.

#[global] Instance M_ret : MRet M := λ A a s, (inr a, s).
#[global] Instance M_bind : MBind M := λ A B f m s,
  match m s with
  | (inl e, s') => (inl e, s')
  | (inr a, s') => f a s'
  end.

Definition raise {A} (e : exn) : M A := λ s, (inl e, s).
Definition eval {A} (r : exn + A) : M A := λ s, (r, s).
Definition gets {A} (f : State → A) : M A := λ s, (inr (f s), s).
Definition set_persons (f : gmap UUID PersonRead.t → gmap UUID PersonRead.t) : M () := λ s,
  (inr (), {| persons := f (persons s); mistakes := mistakes s; world := world s |}).
Definition set_mistakes (f : gmap UUID MistakeRead.t → gmap UUID MistakeRead.t) : M () := λ s,
  (inr (), {| persons := persons s; mistakes := f (mistakes s); world := world s |}).
Definition in_world {A} (f : World → A * World) : M A := λ s,
  let '(a, w) := f (world s) in
  (inr a, {| persons := persons s; mistakes := mistakes s; world := w |}).

(** Constructing a model inside a handler: pydantic raises [ValidationError]. *)
Definition construct {A} (v : V A) : M A := λ s,
  let '(o, w) := v (world s) in
  (match o with Some a => inr a | None => inl ValidationError end,
   {| persons := persons s; mistakes := mistakes s; world := w |}).

(** FastAPI validating the request body against the parameter's model,
    before the handler is called: a failure is answered with 422. *)
Definition body_as {A} (validate : pydict → V A) (body : pyval) : M A := λ s,
  match body with
  | VDict d =>
      let '(o, w) := validate d (world s) in
      (match o with Some a => inr a | None => inl RequestValidationError end,
       {| persons := persons s; mistakes := mistakes s; world := w |})
  | _ => (inl RequestValidationError, s)
  end.

(** [d[k]] *)
Definition subscript {A} (d : gmap UUID A) (k : UUID) : exn + A :=
  match d !! k with Some a => inr a | None => inl KeyError end.

(** [list(d.values())].  Python lists a dict in insertion order; a finite map
    keeps no such order, and the list here follows the map's own
    enumeration.  What is stated below about listings is membership and
    filtering, which do not depend on it. *)
Definition values {A} (d : gmap UUID A) : list A := (map_to_list d).*2.

(** [socket.gethostbyname(socket.gethostname())] *)
Definition gethostbyname_gethostname : M string := λ s,
  (match host_ip (world s) with Some ip => inr ip | None => inl gaierror end, s).

(** Iterating an attribute value, and reading an attribute of an item.  The
    one shape written out is the one an attribute holding models has: a list
    whose items are dicts of fields. *)
Definition py_iter (v : pyval) : exn + list pyval :=
  match v with VList l => inr l | _ => inl TypeError end.

Definition py_getattr (v : pyval) (name : string) : exn + pyval :=
  match v with
  | VDict d => match d !! name with Some x => inr x | None => inl (AttributeError name) end
  | _ => inl (AttributeError name)
  end.

(** [any(cond(x) for x in l)]: stops at the first true item, raises what
    [cond] raises before that. *)
Fixpoint py_any {A} (cond : A → exn + bool) (l : list A) : exn + bool :=
  match l with
  | [] => inr false
  | a :: l' => b ← cond a; if b : bool then inr true else py_any cond l'
  end.

(** [[x for x in l if cond(x)]] *)
Fixpoint comprehension {A} (cond : A → exn + bool) (l : list A) : exn + list A :=
  match l with
  | [] => inr []
  | a :: l' => b ← cond a; r ← comprehension cond l'; inr (if b : bool then a :: r else r)
  end.

(** [if x is not None: results = [a for a in results if get(a) == x]] *)
Definition narrow {A} (x : option string) (get : A → string) (results : list A) : list A :=
  match x with
  | None => results
  | Some s => filter (λ a, get a = s) results
  end.

(** [str(d)] for an [Optional[date]] *)
Definition str_birth_date (b : option date) : string :=
  match b with None => "None" | Some d => date_isoformat d end.

(** ** main.py: handlers *)

Section handlers.
Context `{Lib}.

Definition make_health (echo : option string) (path_echo : option string) : M Health.t :=
  t ← in_world utcnow;
  ip ← gethostbyname_gethostname;
  mret (Health.mk 200 "OK" (isoformat t +:+ "Z") ip echo path_echo).

Definition get_health_no_path (echo : option string) : M Health.t :=
  make_health echo None.

Definition get_health_with_path (path_echo : string) (echo : option string) : M Health.t :=
  make_health echo (Some path_echo).

(** *** Mistake endpoints *)

Definition create_mistake (mistake : MistakeCreate.t) : M MistakeRead.t :=
  ms ← gets mistakes;
  if ms !! MistakeCreate.id mistake is Some _ then
    raise (HTTPException 400 "Mistake with this ID already exists")
  else
    r ← construct (MistakeRead.validate (MistakeCreate.model_dump mistake));
    set_mistakes (insert (MistakeCreate.id mistake) r);;
    ms ← gets mistakes;
    eval (subscript ms (MistakeCreate.id mistake)).

Definition list_mistakes
    (subject key_concept prompt correct_answer wrong_answer reflection : option string)
    : M (list MistakeRead.t) :=
  ms ← gets mistakes;
  let results := values ms in
  let results := narrow subject MistakeRead.subject results in
  let results := narrow key_concept MistakeRead.key_concept results in
  let results := narrow prompt MistakeRead.prompt results in
  let results := narrow correct_answer MistakeRead.correct_answer results in
  let results := narrow wrong_answer MistakeRead.wrong_answer results in
  let results := narrow reflection MistakeRead.reflection results in
  mret results.

Definition get_mistakes (mistakes_id : UUID) : M MistakeRead.t :=
  ms ← gets mistakes;
  if ms !! mistakes_id is None then
    raise (HTTPException 404 "Mistake not found")
  else
    eval (subscript ms mistakes_id).

Definition update_mistake (mistakes_id : UUID) (update : MistakeUpdate.t) : M MistakeRead.t :=
  ms ← gets mistakes;
  if ms !! mistakes_id is None then
    raise (HTTPException 404 "Mistake not found")
  else
    cur ← eval (subscript ms mistakes_id);
    let stored := MistakeRead.model_dump cur in
    (* stored.update(...): the keys of the payload's dump win *)
    let stored := MistakeUpdate.model_dump_exclude_unset update ∪ stored in
    r ← construct (MistakeRead.validate stored);
    set_mistakes (insert mistakes_id r);;
    ms ← gets mistakes;
    eval (subscript ms mistakes_id).

Definition delete_mistake (mistakes_id : UUID) : M () :=
  ms ← gets mistakes;
  if ms !! mistakes_id is None then
    raise (HTTPException 404 "Mistake not found")
  else
    set_mistakes (delete mistakes_id).

(** *** Person endpoints *)

Definition create_person (person : PersonCreate.t) : M PersonRead.t :=
  person_read ← construct (PersonRead.validate (PersonCreate.model_dump person));
  set_persons (insert (PersonRead.id person_read) person_read);;
  mret person_read.

(** [any(mistake.<attr> == x for mistake in p.mistakes)] *)
Definition any_mistake (attr : string) (x : string) (p : PersonRead.t) : exn + bool :=
  ms ← PersonRead.getattr p "mistakes";
  items ← py_iter ms;
  py_any (λ mistake, v ← py_getattr mistake attr; mret (py_eq_str v x)) items.

Definition narrow_nested (x : option string) (attr : string) (results : list PersonRead.t)
    : exn + list PersonRead.t :=
  match x with
  | None => inr results
  | Some s => comprehension (any_mistake attr s) results
  end.

Definition list_persons
    (first_name last_name email birth_date grade_level subject : option string)
    : M (list PersonRead.t) :=
  ps ← gets persons;
  let results := values ps in
  let results := narrow first_name PersonRead.first_name results in
  let results := narrow last_name PersonRead.last_name results in
  let results := narrow email PersonRead.email results in
  let results := narrow birth_date (λ p, str_birth_date (PersonRead.birth_date p)) results in
  results ← eval (narrow_nested grade_level "grade_level" results);
  results ← eval (narrow_nested subject "subject" results);
  mret results.

Definition get_person (person_id : UUID) : M PersonRead.t :=
  ps ← gets persons;
  if ps !! person_id is None then
    raise (HTTPException 404 "Person not found")
  else
    eval (subscript ps person_id).

Definition update_person (person_id : UUID) (update : PersonUpdate.t) : M PersonRead.t :=
  ps ← gets persons;
  if ps !! person_id is None then
    raise (HTTPException 404 "Person not found")
  else
    cur ← eval (subscript ps person_id);
    let stored := PersonRead.model_dump cur in
    (* stored.update(...): the keys of the payload's dump win *)
    let stored := PersonUpdate.model_dump_exclude_unset update ∪ stored in
    r ← construct (PersonRead.validate stored);
    set_persons (insert person_id r);;
    ps ← gets persons;
    eval (subscript ps person_id).

Definition delete_person (person_id : UUID) : M () :=
  ps ← gets persons;
  if ps !! person_id is None then
    raise (HTTPException 404 "Person not found")
  else
    set_persons (delete person_id).
End handlers.

(** ** main.py: the routes *)

Inductive Request :=
| GET_health (echo : option string)
| GET_health_path (path_echo : string) (echo : option string)
| POST_mistakes (body : pyval)
| GET_mistakes (subject key_concept prompt correct_answer wrong_answer reflection : option string)
| GET_mistakes_id (mistakes_id : UUID)
| PATCH_mistakes_id (mistakes_id : UUID) (body : pyval)
| DELETE_mistakes_id (mistakes_id : UUID)
| POST_persons (body : pyval)
| GET_persons (first_name last_name email birth_date grade_level subject : option string)
| GET_persons_id (person_id : UUID)
| PATCH_persons_id (person_id : UUID) (body : pyval)
| DELETE_persons_id (person_id : UUID)
| GET_root.

Inductive Content :=
| CHealth (h : Health.t)
| CMistake (m : MistakeRead.t)
| CMistakes (l : list MistakeRead.t)
| CPerson (p : PersonRead.t)
| CPersons (l : list PersonRead.t)
| CMessage (s : string)
| CEmpty
| CError (e : exn).

Record Response := mk_Response { status : nat; content : Content }.

(** A route declared with [status_code=ok] (200 when not given). *)
Definition route {A} (ok : nat) (render : A → Content) (m : M A) : State → Response * State :=
  λ s,
    match m s with
    | (inr a, s') => (mk_Response ok (render a), s')
    | (inl e, s') => (mk_Response (http_status e) (CError e), s')
    end.

Section app.
Context `{Lib}.

Definition app (r : Request) : State → Response * State :=
  match r with
  | GET_health echo => route 200 CHealth (get_health_no_path echo)
  | GET_health_path path_echo echo => route 200 CHealth (get_health_with_path path_echo echo)
  | POST_mistakes body =>
      route 201 CMistake (mistake ← body_as MistakeCreate.validate body; create_mistake mistake)
  | GET_mistakes s k p c x r => route 200 CMistakes (list_mistakes s k p c x r)
  | GET_mistakes_id i => route 200 CMistake (get_mistakes i)
  | PATCH_mistakes_id i body =>
      route 200 CMistake
        (update ← body_as (λ d w, (MistakeUpdate.validate d, w)) body; update_mistake i update)
  | DELETE_mistakes_id i => route 204 (λ _, CEmpty) (delete_mistake i)
  | POST_persons body =>
      route 201 CPerson (person ← body_as PersonCreate.validate body; create_person person)
  | GET_persons f l e b g s => route 200 CPersons (list_persons f l e b g s)
  | GET_persons_id i => route 200 CPerson (get_person i)
  | PATCH_persons_id i body =>
      route 200 CPerson (update ← body_as PersonUpdate.validate body; update_person i update)
  | DELETE_persons_id i => route 204 (λ _, CEmpty) (delete_person i)
  | GET_root =>
      route 200 CMessage
        (mret "Welcome to the Person/Mistake API. See /docs for OpenAPI UI.")
  end.

(** The states the service can be in: it starts with both dicts empty and
    moves by answering requests. *)
Inductive reachable : State → Prop :=
| reachable_start w : reachable (mk_State ∅ ∅ w)
| reachable_step s r : reachable s → reachable (app r s).2.
End app.

(** A stand-in for the libraries, to run the handlers on concrete requests:
    UUID and date text is not recognised, and any text but the empty one is
    an email address in normal form. *)
Definition plain_lib : Lib := {|
  parse_uuid := λ _, None;
  parse_date := λ _, None;
  validate_email := λ s, if decide (s = "") then None else Some s;
  validate_email_idem := ltac:(intros s s'; simpl; repeat case_decide; congruence)
|}.

(** ** Reading the update payloads *)

(** What a settable text field of an update does to the stored text when
    the merged dict is validated again: unset keeps it, a text replaces it,
    an explicit [null] is refused by the read model's [str] field. *)
Definition patched (o : option (option string)) (old : string) : option string :=
  match o with
  | None => Some old
  | Some (Some s) => Some s
  | Some None => None
  end.

(** The stored record an accepted update leaves, if the update is accepted. *)
Definition patched_mistake (u : MistakeUpdate.t) (r : MistakeRead.t) : option MistakeRead.t :=
  s ← patched (MistakeUpdate.subject u) (MistakeRead.subject r);
  k ← patched (MistakeUpdate.key_concept u) (MistakeRead.key_concept r);
  p ← patched (MistakeUpdate.prompt u) (MistakeRead.prompt r);
  c ← patched (MistakeUpdate.correct_answer u) (MistakeRead.correct_answer r);
  x ← patched (MistakeUpdate.wrong_answer u) (MistakeRead.wrong_answer r);
  f ← patched (MistakeUpdate.reflection u) (MistakeRead.reflection r);
  Some (MistakeRead.mk (MistakeRead.id r) s k p c x f
          (MistakeRead.created_at r) (MistakeRead.updated_at r)).

(** The body [{"subject": x}]. *)
Definition only_subject (x : string) : MistakeUpdate.t :=
  MistakeUpdate.mk (Some (Some x)) None None None None None.

(** A filter value, absent or equal to the field. *)
Definition admits (x : option string) (v : string) : Prop :=
  match x with None => True | Some s => v = s end.

#[global] Instance admits_dec x v : Decision (admits x v).
Proof. destruct x; simpl; apply _. Defined.

(** ** Sample data *)

Definition sample_world : World :=
  mk_World (λ n, 100 + N.of_nat n)%N
           (λ n, mk_datetime 2025 1 15 10 20 30 (N.of_nat n))
           (Some "10.0.0.1").

Definition sample_start : State := mk_State ∅ ∅ sample_world.

Definition mistake_A : MistakeCreate.t :=
  MistakeCreate.mk 7 "lsat" "Logical Reasoning" "prompt A" "D" "A" "why A" true.

Definition mistake_B : MistakeCreate.t :=
  MistakeCreate.mk 8 "gre" "Reading Comprehension" "prompt B" "C" "B" "why B" true.

Definition stored_A : MistakeRead.t :=
  MistakeRead.mk 7 "lsat" "Logical Reasoning" "prompt A" "D" "A" "why A"
    (mk_datetime 2025 1 15 10 20 30 0) (mk_datetime 2025 1 15 10 20 30 1).

Definition stored_B : MistakeRead.t :=
  MistakeRead.mk 8 "gre" "Reading Comprehension" "prompt B" "C" "B" "why B"
    (mk_datetime 2025 1 15 10 20 30 2) (mk_datetime 2025 1 15 10 20 30 3).

(** The state after [POST /mistakes] of A, then of B. *)
Definition sample_A : State := (create_mistake (H:=plain_lib) mistake_A sample_start).2.
Definition sample_AB : State := (create_mistake (H:=plain_lib) mistake_B sample_A).2.

(** The bodies that create A and B, the identifier given as a UUID value. *)
Definition body_A : pydict := MistakeCreate.model_dump mistake_A.
Definition body_B : pydict := MistakeCreate.model_dump mistake_B.

(** ** Embedded entries through a dump *)

(** An embedded entry after [model_dump] and validation again: the same
    fields, with [id] now given by the dict. *)
Definition with_id_set (m : MistakeBase.t) : MistakeBase.t :=
  MistakeBase.mk (MistakeBase.id m) (MistakeBase.subject m) (MistakeBase.key_concept m)
    (MistakeBase.prompt m) (MistakeBase.correct_answer m) (MistakeBase.wrong_answer m)
    (MistakeBase.reflection m) true.

(** The grade level of a record is one of the declared values, or absent. *)
Definition grade_level_declared (g : option string) : Prop :=
  match g with None => True | Some s => s ∈ GradeLevel end.

(** A value offered for [grade_level] that is neither [None] nor one of the
    declared strings. *)
Definition undeclared (v : pyval) : Prop :=
  v ≠ VNone ∧ ∀ g, g ∈ GradeLevel → v ≠ VStr g.

(** What validation guarantees of a creation payload. *)
Definition PersonCreate_valid `{Lib} (pc : PersonCreate.t) : Prop :=
  validate_email (PersonCreate.email pc) = Some (PersonCreate.email pc)
  ∧ grade_level_declared (PersonCreate.grade_level pc).

(** The record [create_person] builds from a payload in world [w]. *)
Definition PersonRead_of_create (pc : PersonCreate.t) (w : World) : PersonRead.t :=
  PersonRead.mk (PersonCreate.first_name pc) (PersonCreate.last_name pc)
    (PersonCreate.email pc) (PersonCreate.birth_date pc) (PersonCreate.grade_level pc)
    (with_id_set <$> PersonCreate.mistake pc)
    (uuid4_feed w 0) (utcnow_feed w 0) (utcnow_feed w 1).

(** A learner with one embedded entry, and the state after [POST /persons]. *)
Definition person_P : PersonCreate.t :=
  PersonCreate.mk "Ada" "Smith" "ada@example.com" None (Some "9-12") [mistake_A].

Definition body_P : pydict := PersonCreate.model_dump person_P.

Definition sample_P : State := (create_person (H:=plain_lib) person_P sample_start).2.




(** ** An invariant of the Mistake dict *)

(** Every Mistake is stored under its own identifier. *)
Definition mistakes_keyed_by_id (st : State) : Prop :=
  ∀ k m, mistakes st !! k = Some m → MistakeRead.id m = k.

(** ** Reading a partial update field by field *)

(** How a stored text [old] and the text [new] after an accepted update
    relate, given what the payload holds for the field. *)
Definition supplied (o : option (option string)) (old new : string) : Prop :=
  match o with
  | None => new = old
  | Some (Some s) => new = s
  | Some None => False
  end.

(** Some field of the payload is an explicit [null]. *)
Definition has_null (u : MistakeUpdate.t) : Prop :=
  MistakeUpdate.subject u = Some None ∨ MistakeUpdate.key_concept u = Some None
  ∨ MistakeUpdate.prompt u = Some None ∨ MistakeUpdate.correct_answer u = Some None
  ∨ MistakeUpdate.wrong_answer u = Some None ∨ MistakeUpdate.reflection u = Some None.

(** The payload of a body that names none of the six fields. *)
Definition nothing_set : MistakeUpdate.t :=
  MistakeUpdate.mk None None None None None None.

(** ** Well-formed creation bodies *)

(** The key holds a string. *)
Definition is_text (o : option pyval) : Prop := ∃ s, o = Some (VStr s).

(** What the creation model asks of a body: the six texts, and an
    identifier that, when given, reads as a UUID. *)
Definition MistakeCreate_body_ok `{Lib} (d : pydict) : Prop :=
  (∀ v, d !! "id" = Some v → is_Some (as_uuid v))
  ∧ is_text (d !! "subject") ∧ is_text (d !! "key_concept") ∧ is_text (d !! "prompt")
  ∧ is_text (d !! "correct_answer") ∧ is_text (d !! "wrong_answer")
  ∧ is_text (d !! "reflection").

(** ** More sample data *)


(** The payload [{"subject": "X", "reflection": "seen again"}]. *)
Definition two_texts : MistakeUpdate.t :=
  MistakeUpdate.mk (Some (Some "X")) None None None None (Some (Some "seen again")).

(** The payload [{"subject": null}]. *)
Definition null_subject : MistakeUpdate.t :=
  MistakeUpdate.mk (Some None) None None None None None.

(** * Properties *)

(** Unfolding one layer of the handler monad. *)
Ltac run :=
  unfold mbind, mret, M_bind, M_ret, raise, eval, gets, set_mistakes, set_persons,
    construct, in_world, subscript; simpl.

Lemma State_eta (st : State) : mk_State (persons st) (mistakes st) (world st) = st.
Proof. by destruct st. Qed.

(** [list(d.values())] holds exactly the values stored under some key. *)
Lemma elem_of_values {A} (d : gmap UUID A) (a : A) :
  a ∈ values d ↔ ∃ k, d !! k = Some a.
Proof.
  unfold values. rewrite list_elem_of_fmap. split.
  - intros [[k a'] [-> Hka]]. exists k. by apply elem_of_map_to_list.
  - intros [k Hk]. exists (k, a). split; [done|]. by apply elem_of_map_to_list.
Qed.

Lemma elem_of_narrow {A} (x : option string) (get : A → string) (l : list A) (a : A) :
  a ∈ narrow x get l ↔ a ∈ l ∧ admits x (get a).
Proof.
  destruct x as [s|]; simpl.
  - rewrite list_elem_of_filter. tauto.
  - tauto.
Qed.

Lemma narrow_filter {A} (x : option string) (get : A → string) (l : list A) :
  narrow x get l = filter (λ a, admits x (get a)) l.
Proof.
  destruct x as [s|]; simpl; [done|].
  induction l as [|a l IH]; [done|]. rewrite filter_cons. simpl. by rewrite <- IH.
Qed.

Section mistake_store.
Context `{Lib}.

(** Building the stored record from a creation payload: the seven fields are
    copied, and each timestamp is a reading of the clock of its own. *)
Lemma MistakeRead_of_create (m : MistakeCreate.t) (w : World) :
  MistakeRead.validate (MistakeCreate.model_dump m) w =
    (Some (MistakeRead.mk (MistakeCreate.id m) (MistakeCreate.subject m)
             (MistakeCreate.key_concept m) (MistakeCreate.prompt m)
             (MistakeCreate.correct_answer m) (MistakeCreate.wrong_answer m)
             (MistakeCreate.reflection m) (utcnow_feed w 0) (utcnow_feed w 1)),
     (utcnow (utcnow w).2).2).
Proof. reflexivity. Qed.

Lemma create_mistake_fresh (st : State) (m : MistakeCreate.t) :
  mistakes st !! MistakeCreate.id m = None →
  create_mistake m st =
    let r := MistakeRead.mk (MistakeCreate.id m) (MistakeCreate.subject m)
               (MistakeCreate.key_concept m) (MistakeCreate.prompt m)
               (MistakeCreate.correct_answer m) (MistakeCreate.wrong_answer m)
               (MistakeCreate.reflection m)
               (utcnow_feed (world st) 0) (utcnow_feed (world st) 1) in
    (inr r, mk_State (persons st) (<[MistakeCreate.id m := r]> (mistakes st))
              (utcnow (utcnow (world st)).2).2).
Proof.
  intros Hfresh. unfold create_mistake. run. rewrite Hfresh.
  rewrite MistakeRead_of_create. simpl. by rewrite lookup_insert_eq.
Qed.

Lemma create_mistake_taken (st : State) (m : MistakeCreate.t) :
  is_Some (mistakes st !! MistakeCreate.id m) →
  create_mistake m st =
    (inl (HTTPException 400 "Mistake with this ID already exists"), st).
Proof. intros [r Hr]. unfold create_mistake. run. by rewrite Hr. Qed.

(** Validating the stored dict merged with an update's set fields. *)
Lemma MistakeRead_of_update (u : MistakeUpdate.t) (r : MistakeRead.t) (w : World) :
  MistakeRead.validate
    (MistakeUpdate.model_dump_exclude_unset u ∪ MistakeRead.model_dump r) w =
    (patched_mistake u r, w).
Proof.
  destruct u as [[[s|]|] [[k|]|] [[p|]|] [[c|]|] [[x|]|] [[f|]|]]; reflexivity.
Qed.

Lemma update_mistake_present (st : State) (i : UUID) (r : MistakeRead.t) (u : MistakeUpdate.t) :
  mistakes st !! i = Some r →
  update_mistake i u st =
    match patched_mistake u r with
    | Some r' => (inr r', mk_State (persons st) (<[i := r']> (mistakes st)) (world st))
    | None => (inl ValidationError, st)
    end.
Proof.
  intros Hr. unfold update_mistake. run. rewrite Hr.
  rewrite MistakeRead_of_update. simpl.
  destruct (patched_mistake u r) as [r'|]; simpl.
  - by rewrite lookup_insert_eq.
  - by rewrite State_eta.
Qed.

Lemma update_mistake_absent (st : State) (i : UUID) (u : MistakeUpdate.t) :
  mistakes st !! i = None →
  update_mistake i u st = (inl (HTTPException 404 "Mistake not found"), st).
Proof. intros Hr. unfold update_mistake. run. by rewrite Hr. Qed.

Lemma get_mistakes_spec (st : State) (i : UUID) :
  get_mistakes i st =
    (match mistakes st !! i with
     | Some r => inr r
     | None => inl (HTTPException 404 "Mistake not found")
     end, st).
Proof. unfold get_mistakes. run. by destruct (mistakes st !! i). Qed.

Lemma delete_mistake_spec (st : State) (i : UUID) :
  delete_mistake i st =
    match mistakes st !! i with
    | Some _ => (inr (), mk_State (persons st) (delete i (mistakes st)) (world st))
    | None => (inl (HTTPException 404 "Mistake not found"), st)
    end.
Proof. unfold delete_mistake. run. by destruct (mistakes st !! i). Qed.

Lemma list_mistakes_spec (st : State) (s k p c x f : option string) :
  list_mistakes s k p c x f st =
    (inr (narrow f MistakeRead.reflection
           (narrow x MistakeRead.wrong_answer
             (narrow c MistakeRead.correct_answer
               (narrow p MistakeRead.prompt
                 (narrow k MistakeRead.key_concept
                   (narrow s MistakeRead.subject (values (mistakes st)))))))), st).
Proof. reflexivity. Qed.
End mistake_store.

(** ** Claims on the Mistake store *)

Section mistake_claims.
Context `{Lib}.

(** C3.  Creating a Mistake whose identifier is already a key of the store
    fails with the 400 [HTTPException] ("Conflict"), and both dicts are what
    they were: the handler raises before it writes.  Stated for the handler
    and for the route [POST /mistakes], where [d] is a body that validates
    to the payload [m]. *)
Theorem create_mistake_conflict (st : State) (d : pydict) (m : MistakeCreate.t) (w' : World) :
  MistakeCreate.validate d (world st) = (Some m, w') →
  is_Some (mistakes st !! MistakeCreate.id m) →
  create_mistake m st =
    (inl (HTTPException 400 "Mistake with this ID already exists"), st)
  ∧ ∃ st',
      app (POST_mistakes (VDict d)) st =
        (mk_Response 400 (CError (HTTPException 400 "Mistake with this ID already exists")), st')
      ∧ mistakes st' = mistakes st
      ∧ persons st' = persons st.
Proof.
  intros Hd Hin. split; [by apply create_mistake_taken|].
  eexists. unfold app, route, body_as. run. rewrite Hd.
  rewrite create_mistake_taken by done. simpl. done.
Qed.

(** C4, as amended.  Creating a Mistake whose identifier is not in the store
    succeeds with status 201, stores the record under that identifier and
    returns it.  The two timestamps are two successive readings of the
    clock, [created_at] first; they are equal exactly when the readings
    are. *)
Theorem create_mistake_stamps (st : State) (d : pydict) (m : MistakeCreate.t) (w' : World) :
  MistakeCreate.validate d (world st) = (Some m, w') →
  mistakes st !! MistakeCreate.id m = None →
  let r := MistakeRead.mk (MistakeCreate.id m) (MistakeCreate.subject m)
             (MistakeCreate.key_concept m) (MistakeCreate.prompt m)
             (MistakeCreate.correct_answer m) (MistakeCreate.wrong_answer m)
             (MistakeCreate.reflection m) (utcnow_feed w' 0) (utcnow_feed w' 1) in
  ∃ st',
    app (POST_mistakes (VDict d)) st = (mk_Response 201 (CMistake r), st')
    ∧ mistakes st' = <[MistakeCreate.id m := r]> (mistakes st)
    ∧ mistakes st' !! MistakeCreate.id m = Some r
    ∧ persons st' = persons st
    ∧ (MistakeRead.created_at r = MistakeRead.updated_at r
       ↔ utcnow_feed w' 0 = utcnow_feed w' 1).
Proof.
  intros Hd Hfresh r. eexists. unfold app, route, body_as. run. rewrite Hd.
  rewrite create_mistake_fresh by done. simpl.
  split; [reflexivity|]. split; [reflexivity|].
  split; [apply lookup_insert_eq|]. done.
Qed.

(** C5.  [get], [update] and [delete] of a Mistake raise the 404
    [HTTPException] ("NotFound") exactly when the identifier is not a key
    of the store.  Deleting a stored identifier removes it, so that a [get]
    that follows raises 404; deleting an absent one leaves the state, and so
    the size of the store, as it was. *)
Theorem mistake_not_found (st : State) (i : UUID) :
  let not_found : exn := HTTPException 404 "Mistake not found" in
  http_status not_found = 404
  ∧ ((get_mistakes i st).1 = inl not_found ↔ mistakes st !! i = None)
  ∧ (∀ u, (update_mistake i u st).1 = inl not_found ↔ mistakes st !! i = None)
  ∧ ((delete_mistake i st).1 = inl not_found ↔ mistakes st !! i = None)
  ∧ (is_Some (mistakes st !! i) →
      ∃ st', delete_mistake i st = (inr (), st')
             ∧ mistakes st' = delete i (mistakes st)
             ∧ get_mistakes i st' = (inl not_found, st'))
  ∧ (mistakes st !! i = None →
      delete_mistake i st = (inl not_found, st)
      ∧ size (mistakes (delete_mistake i st).2) = size (mistakes st)).
Proof.
  intros not_found. split; [done|]. split; [|split; [|split; [|split]]].
  - rewrite get_mistakes_spec. simpl. destruct (mistakes st !! i); naive_solver.
  - intros u. destruct (mistakes st !! i) as [r|] eqn:Hr.
    + rewrite (update_mistake_present _ _ r) by done.
      destruct (patched_mistake u r); naive_solver.
    + rewrite update_mistake_absent by done. done.
  - rewrite delete_mistake_spec. destruct (mistakes st !! i); naive_solver.
  - intros [r Hr]. eexists. rewrite delete_mistake_spec, Hr.
    split; [reflexivity|]. split; [reflexivity|].
    rewrite get_mistakes_spec. simpl. by rewrite lookup_delete_eq.
  - intros Hr. rewrite delete_mistake_spec, Hr. done.
Qed.

(** C6.  [list] leaves the state alone and returns the stored records that
    every supplied filter admits: a record is in the result exactly when it
    is stored under some identifier and each of the six filters is either
    absent or equal, as a string, to the record's field.  The result is the
    list of the store's values filtered by that conjunction; with no
    filter it is the list of values itself, and with a subject filter alone
    it is the values whose subject is that string. *)
Theorem list_mistakes_filters (st : State) (s k p c x f : option string) :
  let admitted (a : MistakeRead.t) : Prop :=
    admits s (MistakeRead.subject a) ∧ admits k (MistakeRead.key_concept a)
    ∧ admits p (MistakeRead.prompt a) ∧ admits c (MistakeRead.correct_answer a)
    ∧ admits x (MistakeRead.wrong_answer a) ∧ admits f (MistakeRead.reflection a) in
  (∃ l,
     list_mistakes s k p c x f st = (inr l, st)
     ∧ l = filter admitted (values (mistakes st))
     ∧ (∀ a, a ∈ l ↔ (∃ i, mistakes st !! i = Some a) ∧ admitted a))
  ∧ list_mistakes None None None None None None st = (inr (values (mistakes st)), st)
  ∧ (∀ a, a ∈ values (mistakes st) ↔ ∃ i, mistakes st !! i = Some a)
  ∧ (∀ t, list_mistakes (Some t) None None None None None st =
            (inr (filter (λ a, MistakeRead.subject a = t) (values (mistakes st))), st)).
Proof.
  intros admitted.
  split; [|split; [done|split; [apply elem_of_values|done]]].
  eexists. split; [apply list_mistakes_spec|]. split.
  - rewrite !narrow_filter, !list_filter_filter.
    apply list_filter_iff. intros a. unfold admitted. tauto.
  - intros a. rewrite !elem_of_narrow, elem_of_values. unfold admitted. tauto.
Qed.

(** C1 (the code departs from it).  An update of a stored Mistake that
    supplies only [subject] replaces the subject and leaves every other
    field as stored, [updated_at] included: the merged dict still carries
    the stored timestamps, so the clock is not read.  This is so for the
    handler and for [PATCH /mistakes/{id}] with the body [{"subject": x}].
    Whatever the payload supplies, an accepted update returns the stored
    [id], [created_at] and [updated_at] and leaves the world untouched. *)
Theorem update_mistake_keeps_updated_at (st : State) (i : UUID) (r : MistakeRead.t) (x : string) :
  mistakes st !! i = Some r →
  let r' := MistakeRead.mk (MistakeRead.id r) x (MistakeRead.key_concept r)
              (MistakeRead.prompt r) (MistakeRead.correct_answer r)
              (MistakeRead.wrong_answer r) (MistakeRead.reflection r)
              (MistakeRead.created_at r) (MistakeRead.updated_at r) in
  let st' := mk_State (persons st) (<[i := r']> (mistakes st)) (world st) in
  update_mistake i (only_subject x) st = (inr r', st')
  ∧ app (PATCH_mistakes_id i (VDict {["subject" := VStr x]})) st =
      (mk_Response 200 (CMistake r'), st')
  ∧ ∀ u r'' st'',
      update_mistake i u st = (inr r'', st'') →
      MistakeRead.id r'' = MistakeRead.id r
      ∧ MistakeRead.created_at r'' = MistakeRead.created_at r
      ∧ MistakeRead.updated_at r'' = MistakeRead.updated_at r
      ∧ world st'' = world st.
Proof.
  intros Hr r' st'. split; [|split].
  - by rewrite (update_mistake_present _ _ r).
  - unfold app, route, body_as. run.
    change (MistakeUpdate.validate {["subject" := VStr x]}) with (Some (only_subject x)).
    simpl. rewrite State_eta. by rewrite (update_mistake_present _ _ r).
  - intros u r'' st''. rewrite (update_mistake_present _ _ r) by done.
    destruct (patched_mistake u r) as [q|] eqn:Hq; [|done].
    intros [= <- <-]. unfold patched_mistake in Hq.
    repeat (match type of Hq with
            | context [patched ?o ?old] => destruct (patched o old); simpl in Hq
            end); try done.
    by injection Hq as <-.
Qed.
End mistake_claims.

(** ** The Person models *)

Lemma lookup_dump_set_eq {A} (k : string) (enc : A → pyval) (x : option A) (d : pydict) :
  dump_set k enc x d !! k = match x with Some a => Some (enc a) | None => d !! k end.
Proof. destruct x; simpl; [apply lookup_insert_eq|done]. Qed.

Lemma lookup_dump_set_ne {A} (k k' : string) (enc : A → pyval) (x : option A) (d : pydict) :
  k ≠ k' → dump_set k enc x d !! k' = d !! k'.
Proof. intros Hne. destruct x; simpl; [by apply lookup_insert_ne|done]. Qed.

Section person_models.
Context `{Lib}.

Lemma MistakeBase_of_dump (m : MistakeBase.t) (w : World) :
  MistakeBase.validate (MistakeBase.model_dump m) w = (Some (with_id_set m), w).
Proof. reflexivity. Qed.

Lemma each_of_dump (ms : list MistakeBase.t) (w : World) :
  each MistakeBase.validate_val ((λ m, VDict (MistakeBase.model_dump m)) <$> ms) w =
    (Some (with_id_set <$> ms), w).
Proof.
  induction ms as [|m ms IH]; [done|].
  rewrite fmap_cons. simpl. rewrite MistakeBase_of_dump, IH. done.
Qed.

Lemma as_literal_declared (v : pyval) (g : option string) :
  optional (as_literal GradeLevel) v = Some g → grade_level_declared g.
Proof.
  destruct v as [|s| | | | |]; simpl; try discriminate.
  - by intros [= <-].
  - case_decide; simpl; [|discriminate]. by intros [= <-].
Qed.

Lemma as_literal_of_declared (g : option string) :
  grade_level_declared g →
  optional (as_literal GradeLevel) (of_opt VStr g) = Some g.
Proof. destruct g as [s|]; simpl; [|done]. intros Hs. by rewrite decide_True. Qed.

Lemma as_email_idem (v : pyval) (e : string) :
  as_email v = Some e → validate_email e = Some e.
Proof. destruct v; simpl; try discriminate. apply validate_email_idem. Qed.

Lemma as_date_of_opt (b : option date) :
  optional as_date (of_opt VDate b) = Some b.
Proof. by destruct b. Qed.

(** A payload that came out of validation is valid. *)
Lemma PersonCreate_validate_valid (d : pydict) (w w' : World) (pc : PersonCreate.t) :
  PersonCreate.validate d w = (Some pc, w') → PersonCreate_valid pc.
Proof.
  unfold PersonCreate.validate.
  destruct (with_default_factory _ _ _ w) as [om w1]. intros [= Hpc _].
  unfold required, with_default in Hpc. simplify_option_eq.
  split; simpl.
  - by eapply as_email_idem.
  - destruct (d !! "grade_level") as [v|]; simplify_eq; [|done].
    by eapply as_literal_declared.
Qed.

Lemma as_literal_undeclared (v : pyval) :
  undeclared v → optional (as_literal GradeLevel) v = None.
Proof.
  intros [Hnone Hout]. destruct v as [|s| | | | |]; simpl; try done.
  case_decide as Hs; [|done]. by destruct (Hout s Hs).
Qed.

(** An undeclared value under [grade_level] makes both Person models that
    check it fail. *)
Lemma PersonRead_validate_undeclared (d : pydict) (w : World) (v : pyval) :
  d !! "grade_level" = Some v → undeclared v →
  (PersonRead.validate d w).1 = None.
Proof.
  intros Hg Hout. unfold PersonRead.validate.
  destruct (with_default_factory _ _ (d !! "mistake") w) as [om w1].
  destruct (with_default_factory _ _ (d !! "id") w1) as [oid w2].
  destruct (with_default_factory _ _ (d !! "created_at") w2) as [oc w3].
  destruct (with_default_factory _ _ (d !! "updated_at") w3) as [ou w4].
  rewrite Hg. cbn [fst with_default]. rewrite as_literal_undeclared by done.
  repeat match goal with |- (?o ≫= _) = None => destruct o; simpl; [|done] end.
  done.
Qed.

Lemma PersonCreate_validate_undeclared (d : pydict) (w : World) (v : pyval) :
  d !! "grade_level" = Some v → undeclared v →
  (PersonCreate.validate d w).1 = None.
Proof.
  intros Hg Hout. unfold PersonCreate.validate.
  destruct (with_default_factory _ _ (d !! "mistake") w) as [om w1].
  rewrite Hg. cbn [fst with_default]. rewrite as_literal_undeclared by done.
  repeat match goal with |- (?o ≫= _) = None => destruct o; simpl; [|done] end.
  done.
Qed.

(** Building the stored record from a creation payload. *)
Lemma PersonRead_validate_of_create (pc : PersonCreate.t) (w : World) :
  PersonCreate_valid pc →
  PersonRead.validate (PersonCreate.model_dump pc) w =
    (Some (PersonRead_of_create pc w), (utcnow (utcnow (uuid4 w).2).2).2).
Proof.
  intros [Hemail Hgrade]. unfold PersonRead.validate.
  replace (PersonCreate.model_dump pc !! "mistake")
    with (Some (VList ((λ m, VDict (MistakeBase.model_dump m)) <$> PersonCreate.mistake pc)))
    by reflexivity.
  replace (PersonCreate.model_dump pc !! "id") with (@None pyval) by reflexivity.
  replace (PersonCreate.model_dump pc !! "created_at") with (@None pyval) by reflexivity.
  replace (PersonCreate.model_dump pc !! "updated_at") with (@None pyval) by reflexivity.
  replace (PersonCreate.model_dump pc !! "first_name")
    with (Some (VStr (PersonCreate.first_name pc))) by reflexivity.
  replace (PersonCreate.model_dump pc !! "last_name")
    with (Some (VStr (PersonCreate.last_name pc))) by reflexivity.
  replace (PersonCreate.model_dump pc !! "email")
    with (Some (VStr (PersonCreate.email pc))) by reflexivity.
  replace (PersonCreate.model_dump pc !! "birth_date")
    with (Some (of_opt VDate (PersonCreate.birth_date pc))) by reflexivity.
  replace (PersonCreate.model_dump pc !! "grade_level")
    with (Some (of_opt VStr (PersonCreate.grade_level pc))) by reflexivity.
  unfold with_default_factory at 1. unfold as_list. rewrite each_of_dump.
  simpl. rewrite Hemail. simpl.
  rewrite as_date_of_opt. simpl.
  rewrite (as_literal_of_declared _ Hgrade). simpl. done.
Qed.

Lemma create_person_spec (st : State) (pc : PersonCreate.t) :
  PersonCreate_valid pc →
  create_person pc st =
    let p := PersonRead_of_create pc (world st) in
    (inr p, mk_State (<[PersonRead.id p := p]> (persons st)) (mistakes st)
              (utcnow (utcnow (uuid4 (world st)).2).2).2).
Proof.
  intros Hvalid. unfold create_person. run.
  rewrite PersonRead_validate_of_create by done. done.
Qed.
End person_models.

(** ** Claims on the Person store *)

Section person_claims.
Context `{Lib}.

Lemma post_persons_valid (st : State) (d : pydict) (pc : PersonCreate.t) (w' : World) :
  PersonCreate.validate d (world st) = (Some pc, w') →
  app (POST_persons (VDict d)) st =
    let p := PersonRead_of_create pc w' in
    (mk_Response 201 (CPerson p),
     mk_State (<[PersonRead.id p := p]> (persons st)) (mistakes st)
       (utcnow (utcnow (uuid4 w').2).2).2).
Proof.
  intros Hd. unfold app, route, body_as. run. rewrite Hd.
  rewrite create_person_spec by (by eapply PersonCreate_validate_valid). done.
Qed.

Lemma post_persons_invalid (st : State) (d : pydict) (w' : World) :
  PersonCreate.validate d (world st) = (None, w') →
  app (POST_persons (VDict d)) st =
    (mk_Response 422 (CError RequestValidationError),
     mk_State (persons st) (mistakes st) w').
Proof. intros Hd. unfold app, route, body_as. run. by rewrite Hd. Qed.


End person_claims.

(** ** Listing Persons by their embedded entries *)

Lemma getattr_mistakes (p : PersonRead.t) :
  PersonRead.getattr p "mistakes" = inl (AttributeError "mistakes").
Proof. reflexivity. Qed.

Lemma getattr_mistake (p : PersonRead.t) :
  PersonRead.getattr p "mistake" =
    inr (VList ((λ m, VDict (MistakeBase.model_dump m)) <$> PersonRead.mistake p)).
Proof. reflexivity. Qed.

Lemma comprehension_raises {A} (cond : A → exn + bool) (e : exn) (l : list A) :
  (∀ a, cond a = inl e) →
  comprehension cond l = match l with [] => inr [] | _ :: _ => inl e end.
Proof. intros Hc. destruct l as [|a l]; simpl; [done|]. by rewrite Hc. Qed.

Section nested_filters.
Context `{Lib}.

Lemma any_mistake_raises (attr x : string) (p : PersonRead.t) :
  any_mistake attr x p = inl (AttributeError "mistakes").
Proof. reflexivity. Qed.

Lemma narrow_nested_spec (x : option string) (attr : string) (results : list PersonRead.t) :
  narrow_nested x attr results =
    match x, results with
    | None, _ => inr results
    | Some _, [] => inr []
    | Some _, _ :: _ => inl (AttributeError "mistakes")
    end.
Proof.
  destruct x as [s|]; simpl; [|done].
  rewrite (comprehension_raises _ (AttributeError "mistakes")); [done|].
  intros p. apply any_mistake_raises.
Qed.

(** C2 (the code departs from it).  When [grade_level] or [subject] is
    supplied, [list_persons] evaluates [p.mistakes] on the first Person
    left by the four plain filters.  The model declares the collection as
    [mistake], so the read raises [AttributeError]: the listing answers
    the empty list when no Person is left, and fails otherwise, whatever
    the embedded entries hold. *)
Theorem list_persons_nested_filter_raises
    (st : State) (f l e b g s : option string) :
  is_Some g ∨ is_Some s →
  let results :=
    narrow b (λ p, str_birth_date (PersonRead.birth_date p))
      (narrow e PersonRead.email
        (narrow l PersonRead.last_name
          (narrow f PersonRead.first_name (values (persons st))))) in
  list_persons f l e b g s st =
    (match results with
     | [] => inr []
     | _ :: _ => inl (AttributeError "mistakes")
     end, st).
Proof.
  intros Hgs results. unfold list_persons. run. fold results.
  rewrite !narrow_nested_spec.
  destruct results as [|p ps], g as [g|], s as [s|]; simpl; try done;
    destruct Hgs as [[? [=]]|[? [=]]].
Qed.

(** C9.  The health report reads the clock once, then resolves the host
    name; when that resolves it returns the record below, whose [echo] and
    [path_echo] are the arguments as given and whose timestamp is the
    reading in ISO format followed by ["Z"].  Resolution is the only
    failure.  Neither dict is touched.  The route without a path
    parameter passes [None] for [path_echo]. *)
Theorem make_health_report (st : State) (echo path_echo : option string) :
  make_health echo path_echo st =
    (match host_ip (world st) with
     | Some ip =>
         inr (Health.mk 200 "OK" (isoformat (utcnow_feed (world st) 0) +:+ "Z")
                ip echo path_echo)
     | None => inl gaierror
     end,
     mk_State (persons st) (mistakes st) (utcnow (world st)).2)
  ∧ get_health_no_path echo st = make_health echo None st
  ∧ ∀ path, get_health_with_path path echo st = make_health echo (Some path) st.
Proof.
  split; [|done]. unfold make_health, gethostbyname_gethostname. run.
  by destruct (host_ip (world st)).
Qed.
End nested_filters.

(** ** The grade level of an update *)

Section grade_level_update.
Context `{Lib}.

(** The update model takes [None] or any string for [grade_level]. *)
Lemma PersonUpdate_validate_grade_level
    (d : pydict) (w w' : World) (u : PersonUpdate.t) (v : pyval) :
  PersonUpdate.validate d w = (Some u, w') →
  d !! "grade_level" = Some v →
  (v = VNone ∧ PersonUpdate.grade_level u = Some None)
  ∨ ∃ g, v = VStr g ∧ PersonUpdate.grade_level u = Some (Some g).
Proof.
  unfold PersonUpdate.validate. intros Hu Hg. rewrite Hg in Hu.
  destruct (PersonUpdate.validate_mistake _ w) as [om w1].
  injection Hu as Hu _.
  destruct v as [|g| | | | |]; simplify_option_eq; eauto.
Qed.

Lemma update_person_undeclared (st : State) (i : UUID) (u : PersonUpdate.t) (g : string) :
  is_Some (persons st !! i) →
  PersonUpdate.grade_level u = Some (Some g) → undeclared (VStr g) →
  ∃ st', update_person i u st = (inl ValidationError, st') ∧ persons st' = persons st.
Proof.
  intros [cur Hcur] Hu Hout. unfold update_person. run. rewrite Hcur.
  pose proof (PersonRead_validate_undeclared
    (PersonUpdate.model_dump_exclude_unset u ∪ PersonRead.model_dump cur)
    (world st) (VStr g)) as Hnone.
  destruct (PersonRead.validate _ (world st)) as [o w1]. simpl in Hnone.
  rewrite Hnone; [by eexists|..|done].
  apply lookup_union_Some_l. unfold PersonUpdate.model_dump_exclude_unset.
  rewrite !lookup_dump_set_ne by done. by rewrite lookup_dump_set_eq, Hu.
Qed.

(** C8 (the code departs from it).  The update model declares [grade_level]
    as any string, where the creation and read models declare the fixed
    values.  A [PATCH /persons/{id}] whose body gives a string [g] outside
    the declared values therefore passes the validation of the request: it
    is never answered 422.  On an identifier that is not stored it is
    answered 404; on a stored one the value is refused only once the merged
    record is validated as a read model, by a [ValidationError] that leaves
    the handler uncaught (500), the Person dict unchanged.  The same value
    in a [POST /persons] body is answered 422. *)
Theorem update_person_grade_level_unchecked (st : State) (i : UUID) (g : string) :
  undeclared (VStr g) →
  let body : pydict := {["grade_level" := VStr g]} in
  PersonUpdate.validate body (world st) =
    (Some (PersonUpdate.mk None None None None (Some (Some g)) None), world st)
  ∧ (persons st !! i = None →
       app (PATCH_persons_id i (VDict body)) st =
         (mk_Response 404 (CError (HTTPException 404 "Person not found")), st))
  ∧ (is_Some (persons st !! i) →
       ∃ st',
         app (PATCH_persons_id i (VDict body)) st =
           (mk_Response 500 (CError ValidationError), st')
         ∧ persons st' = persons st)
  ∧ status (app (PATCH_persons_id i (VDict body)) st).1 ≠ 422
  ∧ (∀ d u w',
       PersonUpdate.validate d (world st) = (Some u, w') →
       d !! "grade_level" = Some (VStr g) →
       is_Some (persons st !! i) →
       ∃ st',
         app (PATCH_persons_id i (VDict d)) st =
           (mk_Response 500 (CError ValidationError), st')
         ∧ persons st' = persons st)
  ∧ (∀ d,
       d !! "grade_level" = Some (VStr g) →
       ∃ st',
         app (POST_persons (VDict d)) st =
           (mk_Response 422 (CError RequestValidationError), st')
         ∧ persons st' = persons st).
Proof.
  intros Hout body.
  assert (Hbody : PersonUpdate.validate body (world st) =
            (Some (PersonUpdate.mk None None None None (Some (Some g)) None), world st))
    by reflexivity.
  assert (Hgen : ∀ d u w',
       PersonUpdate.validate d (world st) = (Some u, w') →
       d !! "grade_level" = Some (VStr g) →
       is_Some (persons st !! i) →
       ∃ st',
         app (PATCH_persons_id i (VDict d)) st =
           (mk_Response 500 (CError ValidationError), st')
         ∧ persons st' = persons st).
  { intros d u w' Hd Hg Hi. unfold app, route, body_as. run. rewrite Hd. simpl.
    destruct (PersonUpdate_validate_grade_level _ _ _ _ _ Hd Hg)
      as [[[=] _]|(g' & [= <-] & Hu)].
    destruct (update_person_undeclared
                (mk_State (persons st) (mistakes st) w') i u g Hi Hu Hout)
      as (st' & -> & Hp).
    by exists st'. }
  assert (Habsent : persons st !! i = None →
       app (PATCH_persons_id i (VDict body)) st =
         (mk_Response 404 (CError (HTTPException 404 "Person not found")), st)).
  { intros Hi. unfold app, route, body_as, update_person. run. rewrite Hbody.
    cbn [persons]. rewrite Hi. by rewrite State_eta. }
  split; [exact Hbody|]. split; [exact Habsent|].
  split; [intros Hi; by apply (Hgen body _ _ Hbody)|].
  split; [|split; [exact Hgen|]].
  - destruct (persons st !! i) as [cur|] eqn:Hi.
    + destruct (Hgen body _ _ Hbody eq_refl (mk_is_Some _ _ eq_refl)) as (st' & Hrun & _).
      by rewrite Hrun.
    + by rewrite Habsent.
  - intros d Hg.
    pose proof (PersonCreate_validate_undeclared d (world st) _ Hg Hout) as Hnone.
    destruct (PersonCreate.validate d (world st)) as [o w1] eqn:Hd. simpl in Hnone.
    subst o. eexists. by rewrite (post_persons_invalid _ _ w1).
Qed.
End grade_level_update.

(** ** The claims on the sample data *)

(** C1, at a concrete store: A is stored with [updated_at] 10:20:30.000001
    and the clock next reads 10:20:30.000002; the update to subject ["X"]
    returns the stored [updated_at], not the reading. *)
Lemma update_mistake_keeps_updated_at_sample :
  mistakes sample_A !! 7%N = Some stored_A
  ∧ ∃ r' st',
      update_mistake (H:=plain_lib) 7 (only_subject "X") sample_A = (inr r', st')
      ∧ MistakeRead.subject r' = "X"
      ∧ MistakeRead.updated_at r' = mk_datetime 2025 1 15 10 20 30 1
      ∧ utcnow_feed (world sample_A) 0 = mk_datetime 2025 1 15 10 20 30 2.
Proof.
  split; [reflexivity|].
  destruct (update_mistake_keeps_updated_at (H:=plain_lib) sample_A 7 stored_A "X")
    as [Hrun _]; [reflexivity|].
  eexists _, _. split; [exact Hrun|]. repeat split.
Defined.

(** C2, at a concrete store: P has an embedded entry whose subject is
    ["lsat"], and listing by that subject raises instead of returning P. *)
Lemma list_persons_nested_filter_raises_sample :
  (∃ p, persons sample_P !! 100%N = Some p
        ∧ MistakeBase.subject <$> PersonRead.mistake p = ["lsat"])
  ∧ list_persons None None None None None (Some "lsat") sample_P =
      (inl (AttributeError "mistakes"), sample_P).
Proof.
  split; [eexists; split; reflexivity|].
  apply (list_persons_nested_filter_raises sample_P None None None None None (Some "lsat")).
  right. by eexists.
Defined.

(** C3, at a concrete store: A is stored, and posting A again answers 400. *)
Lemma create_mistake_conflict_sample :
  create_mistake (H:=plain_lib) mistake_A sample_A =
    (inl (HTTPException 400 "Mistake with this ID already exists"), sample_A)
  ∧ ∃ st',
      app (H:=plain_lib) (POST_mistakes (VDict body_A)) sample_A =
        (mk_Response 400 (CError (HTTPException 400 "Mistake with this ID already exists")), st')
      ∧ mistakes st' = mistakes sample_A
      ∧ persons st' = persons sample_A.
Proof.
  apply (create_mistake_conflict (H:=plain_lib) sample_A body_A mistake_A (world sample_A)).
  - reflexivity.
  - by eexists.
Defined.

(** C4 as first stated fails: on a clock that moves by a microsecond between
    two readings, the created record's timestamps differ. *)
Lemma create_mistake_timestamps_differ :
  mistakes sample_start !! MistakeCreate.id mistake_A = None
  ∧ ∃ r st',
      app (H:=plain_lib) (POST_mistakes (VDict body_A)) sample_start =
        (mk_Response 201 (CMistake r), st')
      ∧ MistakeRead.created_at r ≠ MistakeRead.updated_at r.
Proof.
  split; [reflexivity|]. eexists _, _. split; [reflexivity|]. simpl. discriminate.
Defined.

Lemma create_mistake_stamps_sample :
  ∃ st',
    app (H:=plain_lib) (POST_mistakes (VDict body_A)) sample_start =
      (mk_Response 201 (CMistake stored_A), st')
    ∧ mistakes st' = <[7%N := stored_A]> (mistakes sample_start)
    ∧ mistakes st' !! 7%N = Some stored_A
    ∧ persons st' = persons sample_start
    ∧ (MistakeRead.created_at stored_A = MistakeRead.updated_at stored_A
       ↔ utcnow_feed sample_world 0 = utcnow_feed sample_world 1).
Proof.
  apply (create_mistake_stamps (H:=plain_lib) sample_start body_A mistake_A sample_world).
  - reflexivity.
  - reflexivity.
Defined.

(** C5, at a concrete store: B is not stored in [sample_A], A is. *)
Lemma mistake_not_found_sample :
  get_mistakes 8 sample_A = (inl (HTTPException 404 "Mistake not found"), sample_A)
  ∧ (delete_mistake 8 sample_A).1 = inl (HTTPException 404 "Mistake not found")
  ∧ size (mistakes (delete_mistake 8 sample_A).2) = 1
  ∧ ∃ st', delete_mistake 7 sample_A = (inr (), st')
           ∧ get_mistakes 7 st' = (inl (HTTPException 404 "Mistake not found"), st').
Proof.
  destruct (mistake_not_found (H:=plain_lib) sample_A 8) as (_ & Hget & _ & Hdel & _ & Habsent).
  destruct (mistake_not_found (H:=plain_lib) sample_A 7) as (_ & _ & _ & _ & Hpresent & _).
  split; [reflexivity|]. split; [by apply Hdel|].
  split; [by rewrite (proj2 (Habsent eq_refl))|].
  destruct Hpresent as (st' & Hd & _ & Hg); [by eexists|]. by exists st'.
Defined.

(** C6, at a concrete store holding A (subject ["lsat"]) and B (["gre"]). *)
Lemma list_mistakes_filters_sample :
  list_mistakes (Some "lsat") None None None None None sample_AB =
    (inr [stored_A], sample_AB)
  ∧ list_mistakes (Some "LSAT") None None None None None sample_AB =
      (inr [], sample_AB)
  ∧ (∀ a, a ∈ values (mistakes sample_AB) ↔ a = stored_A ∨ a = stored_B).
Proof.
  destruct (list_mistakes_filters sample_AB None None None None None None)
    as (_ & _ & Hall & Hsubject).
  split; [by rewrite Hsubject|]. split; [by rewrite Hsubject|].
  intros a. change (values (mistakes sample_AB)) with [stored_B; stored_A].
  rewrite !elem_of_cons, elem_of_nil. tauto.
Defined.

(** C8, on the sample run: ["undergraduate"], the grade level of the
    creation model's own example, is not a declared value; patched onto the
    stored P it is answered 500, and posted it is answered 422. *)
Lemma update_person_grade_level_unchecked_sample :
  undeclared (VStr "undergraduate")
  ∧ (∃ st',
       app (H:=plain_lib) (PATCH_persons_id 100 (VDict {["grade_level" := VStr "undergraduate"]}))
         sample_P = (mk_Response 500 (CError ValidationError), st')
       ∧ persons st' = persons sample_P)
  ∧ app (H:=plain_lib) (PATCH_persons_id 101 (VDict {["grade_level" := VStr "undergraduate"]}))
      sample_P = (mk_Response 404 (CError (HTTPException 404 "Person not found")), sample_P)
  ∧ ∃ st',
      app (H:=plain_lib) (POST_persons (VDict (<["grade_level" := VStr "undergraduate"]> body_P)))
        sample_start = (mk_Response 422 (CError RequestValidationError), st')
      ∧ persons st' = persons sample_start.
Proof.
  assert (Hout : undeclared (VStr "undergraduate")).
  { split; [done|]. intros g Hg [= <-]. revert Hg.
    unfold GradeLevel. rewrite !elem_of_cons, elem_of_nil. intros Hin.
    repeat (destruct Hin as [Hin|Hin]; [discriminate Hin|]). exact Hin. }
  split; [exact Hout|]. split; [|split].
  - destruct (update_person_grade_level_unchecked (H:=plain_lib)
                sample_P 100%N "undergraduate" Hout) as (_ & _ & Hstored & _).
    apply Hstored. by eexists.
  - destruct (update_person_grade_level_unchecked (H:=plain_lib)
                sample_P 101%N "undergraduate" Hout) as (_ & Habsent & _).
    apply Habsent. reflexivity.
  - destruct (update_person_grade_level_unchecked (H:=plain_lib)
                sample_start 100%N "undergraduate" Hout) as (_ & _ & _ & _ & _ & Hpost).
    apply Hpost. reflexivity.
Defined.

(** C9, on the sample world. *)
Lemma make_health_report_sample :
  make_health (Some "ping") None sample_start =
    (inr (Health.mk 200 "OK" "2025-01-15T10:20:30Z" "10.0.0.1" (Some "ping") None),
     mk_State ∅ ∅ (utcnow sample_world).2).
Proof.
  destruct (make_health_report sample_start (Some "ping") None) as [Hrun _].
  exact Hrun.
Defined.


(** * Further properties of the handlers *)

Section person_store.
Context `{Lib}.

Lemma get_person_spec (st : State) (i : UUID) :
  get_person i st =
    (match persons st !! i with
     | Some p => inr p
     | None => inl (HTTPException 404 "Person not found")
     end, st).
Proof. unfold get_person. run. by destruct (persons st !! i). Qed.

Lemma delete_person_spec (st : State) (i : UUID) :
  delete_person i st =
    match persons st !! i with
    | Some _ => (inr (), mk_State (delete i (persons st)) (mistakes st) (world st))
    | None => (inl (HTTPException 404 "Person not found"), st)
    end.
Proof. unfold delete_person. run. by destruct (persons st !! i). Qed.

(** What [update_person] does on a stored identifier, in terms of the
    validation of the merged dict. *)
Lemma update_person_present (st : State) (i : UUID) (cur : PersonRead.t) (u : PersonUpdate.t) :
  persons st !! i = Some cur →
  update_person i u st =
    let '(o, w) :=
      PersonRead.validate
        (PersonUpdate.model_dump_exclude_unset u ∪ PersonRead.model_dump cur) (world st) in
    match o with
    | Some p => (inr p, mk_State (<[i := p]> (persons st)) (mistakes st) w)
    | None => (inl ValidationError, mk_State (persons st) (mistakes st) w)
    end.
Proof.
  intros Hcur. unfold update_person. run. rewrite Hcur.
  destruct (PersonRead.validate _ (world st)) as [[p|] w]; simpl; [|done].
  by rewrite lookup_insert_eq.
Qed.

Lemma update_person_absent (st : State) (i : UUID) (u : PersonUpdate.t) :
  persons st !! i = None →
  update_person i u st = (inl (HTTPException 404 "Person not found"), st).
Proof. intros Hi. unfold update_person. run. by rewrite Hi. Qed.

(** X1.  [get], [update] and [delete] of a Person raise the 404
    [HTTPException] exactly when the identifier is not a key of the Person
    dict; a stored identifier reads back its record.  Deleting a stored
    identifier removes it, so that a [get] that follows raises 404, and
    leaves what every other identifier reads as it was. *)
Theorem person_not_found (st : State) (i : UUID) :
  let not_found : exn := HTTPException 404 "Person not found" in
  ((get_person i st).1 = inl not_found ↔ persons st !! i = None)
  ∧ (∀ u, (update_person i u st).1 = inl not_found ↔ persons st !! i = None)
  ∧ ((delete_person i st).1 = inl not_found ↔ persons st !! i = None)
  ∧ (∀ p, persons st !! i = Some p → get_person i st = (inr p, st))
  ∧ (is_Some (persons st !! i) →
      ∃ st', delete_person i st = (inr (), st')
             ∧ persons st' = delete i (persons st)
             ∧ get_person i st' = (inl not_found, st')
             ∧ ∀ j, j ≠ i → get_person j st' = (fst (get_person j st), st')).
Proof.
  intros not_found. split; [|split; [|split; [|split]]].
  - rewrite get_person_spec. simpl. destruct (persons st !! i); naive_solver.
  - intros u. destruct (persons st !! i) as [cur|] eqn:Hcur.
    + rewrite (update_person_present _ _ cur) by done.
      destruct (PersonRead.validate _ _) as [[p|] w]; naive_solver.
    + rewrite update_person_absent by done. done.
  - rewrite delete_person_spec. destruct (persons st !! i); naive_solver.
  - intros p Hp. by rewrite get_person_spec, Hp.
  - intros [p Hp]. eexists. rewrite delete_person_spec, Hp.
    split; [reflexivity|]. split; [reflexivity|]. split.
    + rewrite get_person_spec. simpl. by rewrite lookup_delete_eq.
    + intros j Hj. rewrite !get_person_spec. simpl. by rewrite lookup_delete_ne.
Qed.
End person_store.
Section footprint.
Context `{Lib}.

(** X2.  What each route can touch.  The Mistake routes that write leave the
    Person dict alone and the Person routes that write leave the Mistake
    dict alone; the two deletes read neither the clock nor [uuid4()]; the
    health routes change nothing but the clock, by one reading; the listing,
    lookup and root routes leave the whole state as it was, also when
    they fail. *)
Theorem request_footprint (r : Request) (st : State) :
  match r with
  | POST_mistakes _ | PATCH_mistakes_id _ _ =>
      persons (app r st).2 = persons st
  | DELETE_mistakes_id _ =>
      persons (app r st).2 = persons st ∧ world (app r st).2 = world st
  | POST_persons _ | PATCH_persons_id _ _ =>
      mistakes (app r st).2 = mistakes st
  | DELETE_persons_id _ =>
      mistakes (app r st).2 = mistakes st ∧ world (app r st).2 = world st
  | GET_health _ | GET_health_path _ _ =>
      persons (app r st).2 = persons st ∧ mistakes (app r st).2 = mistakes st
      ∧ world (app r st).2 = (utcnow (world st)).2
  | GET_mistakes _ _ _ _ _ _ | GET_mistakes_id _
  | GET_persons _ _ _ _ _ _ | GET_persons_id _ | GET_root =>
      (app r st).2 = st
  end.
Proof.
  destruct r; unfold app, route.
  all: unfold get_health_no_path, get_health_with_path, make_health,
         gethostbyname_gethostname, create_mistake, list_mistakes, get_mistakes,
         update_mistake, delete_mistake, create_person, list_persons, get_person,
         update_person, delete_person, body_as.
  all: run.
  all: repeat (case_match; simpl in *; simplify_eq); rewrite ?State_eta; eauto.
Qed.
End footprint.
Section keys.
Context `{Lib}.

(** What a request can do to the Mistake dict. *)
Lemma app_mistakes_step (r : Request) (s : State) :
  mistakes (app r s).2 = mistakes s
  ∨ (∃ m ca ua,
       mistakes s !! MistakeCreate.id m = None
       ∧ mistakes (app r s).2 =
           <[MistakeCreate.id m :=
               MistakeRead.mk (MistakeCreate.id m) (MistakeCreate.subject m)
                 (MistakeCreate.key_concept m) (MistakeCreate.prompt m)
                 (MistakeCreate.correct_answer m) (MistakeCreate.wrong_answer m)
                 (MistakeCreate.reflection m) ca ua]> (mistakes s))
  ∨ (∃ i cur u r',
       mistakes s !! i = Some cur ∧ patched_mistake u cur = Some r'
       ∧ mistakes (app r s).2 = <[i := r']> (mistakes s))
  ∨ (∃ i, is_Some (mistakes s !! i) ∧ mistakes (app r s).2 = delete i (mistakes s)).
Proof.
  destruct r as [e|pe e|body|f1 f2 f3 f4 f5 f6|i|i body|i|body|f1 f2 f3 f4 f5 f6|i|i body|i|];
    unfold app, route.
  3: { destruct body as [| | | | | |d]; try (by left).
       unfold body_as. run.
       destruct (MistakeCreate.validate d (world s)) as [[m|] w] eqn:Hd; simpl; [|by left].
       destruct (mistakes s !! MistakeCreate.id m) as [old|] eqn:Hm.
       - rewrite create_mistake_taken by (simpl; eauto). by left.
       - rewrite create_mistake_fresh by done. right; left. by eexists _, _, _. }
  5: { destruct body as [| | | | | |d]; try (by left).
       unfold body_as. run.
       destruct (MistakeUpdate.validate d) as [u|]; simpl; [|by left].
       destruct (mistakes s !! i) as [cur|] eqn:Hi.
       - rewrite (update_mistake_present _ _ cur) by done.
         destruct (patched_mistake u cur) as [r'|] eqn:Hp; simpl; [|by left].
         right; right; left. by eexists _, _, _, _.
       - rewrite update_mistake_absent by done. by left. }
  5: { rewrite delete_mistake_spec.
       destruct (mistakes s !! i) as [cur|] eqn:Hi; simpl; [|by left].
       right; right; right. eauto. }
  all: unfold get_health_no_path, get_health_with_path, make_health,
         gethostbyname_gethostname, list_mistakes, get_mistakes,
         create_person, list_persons, get_person,
         update_person, delete_person, body_as.
  all: run.
  all: repeat (case_match; simpl in *; simplify_eq); eauto.
Qed.

Lemma patched_mistake_fixed (u : MistakeUpdate.t) (cur r' : MistakeRead.t) :
  patched_mistake u cur = Some r' →
  MistakeRead.id r' = MistakeRead.id cur
  ∧ MistakeRead.created_at r' = MistakeRead.created_at cur
  ∧ MistakeRead.updated_at r' = MistakeRead.updated_at cur.
Proof.
  unfold patched_mistake. intros Hq.
  repeat (match type of Hq with
          | context [patched ?o ?old] => destruct (patched o old); simpl in Hq
          end); try done.
  by injection Hq as <-.
Qed.
End keys.
Section keys2.
Context `{Lib}.

Lemma mistakes_keyed_by_id_step (r : Request) (st : State) :
  mistakes_keyed_by_id st → mistakes_keyed_by_id (app r st).2.
Proof.
  intros Hkey k m.
  destruct (app_mistakes_step r st)
    as [Heq|[(c&ca&ua&Hfresh&Heq)|[(i&cur&u&r'&Hi&Hr'&Heq)|(i&_&Heq)]]]; rewrite Heq.
  - apply Hkey.
  - rewrite lookup_insert. case_decide; [by intros [= <-]|apply Hkey].
  - rewrite lookup_insert. case_decide; [|apply Hkey].
    intros [= <-]. subst k.
    destruct (patched_mistake_fixed _ _ _ Hr') as (-> & _). by apply Hkey.
  - intros Hq. apply lookup_delete_Some in Hq as [_ Hq]. by apply Hkey.
Qed.

Lemma mistakes_keyed_by_id_reachable (st : State) :
  reachable st → mistakes_keyed_by_id st.
Proof.
  induction 1 as [w|s r _ IH]; [|by apply mistakes_keyed_by_id_step].
  intros k m. simpl. by rewrite lookup_empty.
Qed.

(** X3.  Every Mistake is stored under its own identifier: this holds of the
    empty dict and every request keeps it, so in every state the service can
    reach the record a [get] returns for an identifier carries that
    identifier. *)
Theorem mistake_keys_are_ids :
  (∀ st, reachable st → mistakes_keyed_by_id st)
  ∧ (∀ st r, mistakes_keyed_by_id st → mistakes_keyed_by_id (app r st).2)
  ∧ (∀ st i m st',
       reachable st → get_mistakes i st = (inr m, st') → MistakeRead.id m = i).
Proof.
  split; [apply mistakes_keyed_by_id_reachable|].
  split; [intros st r; apply mistakes_keyed_by_id_step|].
  intros st i m st' Hreach. rewrite get_mistakes_spec.
  destruct (mistakes st !! i) as [m0|] eqn:Hi; [|done]. intros [= <- _].
  by apply (mistakes_keyed_by_id_reachable st Hreach).
Qed.

(** X4.  No request changes the identifier or the creation time of a stored
    Mistake: a record found under a key before and after a request has the
    same [id] and [created_at]. *)
Theorem mistake_id_created_at_fixed
    (r : Request) (st : State) (k : UUID) (m m' : MistakeRead.t) :
  mistakes st !! k = Some m →
  mistakes (app r st).2 !! k = Some m' →
  MistakeRead.id m' = MistakeRead.id m
  ∧ MistakeRead.created_at m' = MistakeRead.created_at m.
Proof.
  intros Hm.
  destruct (app_mistakes_step r st)
    as [Heq|[(c&ca&ua&Hfresh&Heq)|[(i&cur&u&r'&Hi&Hr'&Heq)|(i&_&Heq)]]]; rewrite Heq.
  - rewrite Hm. by intros [= <-].
  - rewrite lookup_insert. case_decide; [congruence|]. rewrite Hm. by intros [= <-].
  - rewrite lookup_insert. case_decide.
    + intros [= <-]. subst k. rewrite Hm in Hi. injection Hi as <-.
      destruct (patched_mistake_fixed _ _ _ Hr') as (? & ? & _). done.
    + rewrite Hm. by intros [= <-].
  - intros Hq. apply lookup_delete_Some in Hq as [_ Hq]. rewrite Hm in Hq. by injection Hq as <-.
Qed.
End keys2.
Section mistake_update.
Context `{Lib}.

(** X5.  A Mistake written is the Mistake read: when [POST /mistakes]
    answers 201 with a record, or [PATCH /mistakes/{id}] answers 200 with
    one, a [get] of that identifier in the state reached returns exactly
    that record. *)
Theorem mistake_read_after_write (st st' : State) (body : pyval) (i : UUID) (m : MistakeRead.t) :
  (app (POST_mistakes body) st = (mk_Response 201 (CMistake m), st') →
     get_mistakes (MistakeRead.id m) st' = (inr m, st'))
  ∧ (app (PATCH_mistakes_id i body) st = (mk_Response 200 (CMistake m), st') →
       get_mistakes i st' = (inr m, st')).
Proof.
  split.
  - destruct body as [| | | | | |d]; try done.
    unfold app, route, body_as. run.
    destruct (MistakeCreate.validate d (world st)) as [[mc|] w] eqn:Hd; simpl; [|done].
    destruct (mistakes st !! MistakeCreate.id mc) as [old|] eqn:Hm.
    + rewrite create_mistake_taken by (simpl; eauto). done.
    + rewrite create_mistake_fresh by done. simpl. intros [= <- <-].
      rewrite get_mistakes_spec. simpl. by rewrite lookup_insert_eq.
  - destruct body as [| | | | | |d]; try done.
    unfold app, route, body_as. run.
    destruct (MistakeUpdate.validate d) as [u|]; simpl; [|done].
    destruct (mistakes st !! i) as [cur|] eqn:Hi.
    + rewrite (update_mistake_present _ _ cur) by done.
      destruct (patched_mistake u cur) as [r'|]; simpl; [|done]. intros [= <- <-].
      rewrite get_mistakes_spec. simpl. by rewrite lookup_insert_eq.
    + rewrite update_mistake_absent by done. done.
Qed.

Lemma patched_supplied (o : option (option string)) (old new : string) :
  patched o old = Some new ↔ supplied o old new.
Proof. destruct o as [[s|]|]; simpl; naive_solver. Qed.

(** X7.  An accepted update of a stored Mistake sets each of the six text
    fields to the text the payload supplies for it and keeps the stored text
    of a field the payload leaves out; it writes the result under the same
    key and changes nothing else in the state. *)
Theorem update_mistake_fields
    (st st' : State) (i : UUID) (cur r' : MistakeRead.t) (u : MistakeUpdate.t) :
  mistakes st !! i = Some cur →
  update_mistake i u st = (inr r', st') →
  supplied (MistakeUpdate.subject u) (MistakeRead.subject cur) (MistakeRead.subject r')
  ∧ supplied (MistakeUpdate.key_concept u) (MistakeRead.key_concept cur)
      (MistakeRead.key_concept r')
  ∧ supplied (MistakeUpdate.prompt u) (MistakeRead.prompt cur) (MistakeRead.prompt r')
  ∧ supplied (MistakeUpdate.correct_answer u) (MistakeRead.correct_answer cur)
      (MistakeRead.correct_answer r')
  ∧ supplied (MistakeUpdate.wrong_answer u) (MistakeRead.wrong_answer cur)
      (MistakeRead.wrong_answer r')
  ∧ supplied (MistakeUpdate.reflection u) (MistakeRead.reflection cur)
      (MistakeRead.reflection r')
  ∧ st' = mk_State (persons st) (<[i := r']> (mistakes st)) (world st).
Proof.
  intros Hcur. rewrite (update_mistake_present _ _ cur) by done.
  destruct (patched_mistake u cur) as [q|] eqn:Hq; [|done]. intros [= <- <-].
  unfold patched_mistake in Hq.
  destruct (patched (MistakeUpdate.subject u) _) as [s|] eqn:Hs; simpl in Hq; [|done].
  destruct (patched (MistakeUpdate.key_concept u) _) as [k|] eqn:Hk; simpl in Hq; [|done].
  destruct (patched (MistakeUpdate.prompt u) _) as [p|] eqn:Hp; simpl in Hq; [|done].
  destruct (patched (MistakeUpdate.correct_answer u) _) as [c|] eqn:Hc; simpl in Hq; [|done].
  destruct (patched (MistakeUpdate.wrong_answer u) _) as [x|] eqn:Hx; simpl in Hq; [|done].
  destruct (patched (MistakeUpdate.reflection u) _) as [f|] eqn:Hf; simpl in Hq; [|done].
  injection Hq as <-. simpl. rewrite <- !patched_supplied. done.
Qed.

Lemma patched_None (o : option (option string)) (old : string) :
  patched o old = None ↔ o = Some None.
Proof. destruct o as [[s|]|]; simpl; naive_solver. Qed.

Lemma patched_mistake_None (u : MistakeUpdate.t) (cur : MistakeRead.t) :
  patched_mistake u cur = None ↔ has_null u.
Proof.
  unfold patched_mistake, has_null.
  rewrite <- (patched_None _ (MistakeRead.subject cur)),
          <- (patched_None _ (MistakeRead.key_concept cur)),
          <- (patched_None _ (MistakeRead.prompt cur)),
          <- (patched_None _ (MistakeRead.correct_answer cur)),
          <- (patched_None _ (MistakeRead.wrong_answer cur)),
          <- (patched_None _ (MistakeRead.reflection cur)).
  destruct (patched (MistakeUpdate.subject u) _); simpl; [|tauto].
  destruct (patched (MistakeUpdate.key_concept u) _); simpl; [|tauto].
  destruct (patched (MistakeUpdate.prompt u) _); simpl; [|tauto].
  destruct (patched (MistakeUpdate.correct_answer u) _); simpl; [|tauto].
  destruct (patched (MistakeUpdate.wrong_answer u) _); simpl; [|tauto].
  destruct (patched (MistakeUpdate.reflection u) _); simpl; [|tauto].
  split; [discriminate|]. intros Hn. repeat (destruct Hn as [Hn|Hn]; [discriminate|]). discriminate.
Qed.

(** X8.  An update of a stored Mistake fails exactly when the payload sets
    one of the six fields to [null]: the read model refuses the merged
    record, pydantic's [ValidationError] leaves the handler, and the state is
    what it was.  Any other payload is accepted. *)
Theorem update_mistake_null (st : State) (i : UUID) (cur : MistakeRead.t) (u : MistakeUpdate.t) :
  mistakes st !! i = Some cur →
  (has_null u ↔ update_mistake i u st = (inl ValidationError, st))
  ∧ (¬ has_null u ↔ ∃ r' st', update_mistake i u st = (inr r', st')).
Proof.
  intros Hcur. rewrite (update_mistake_present _ _ cur) by done.
  rewrite <- (patched_mistake_None u cur).
  destruct (patched_mistake u cur) as [r'|]; split; split; try done; eauto.
  - intros [r' [st' [=]]].
Qed.

(** X9.  A [PATCH /mistakes/{id}] whose body names none of the six fields,
    whatever else it holds, answers 200 with the stored record and leaves
    the state as it was. *)
Theorem update_mistake_nothing (st : State) (i : UUID) (cur : MistakeRead.t) (d : pydict) :
  mistakes st !! i = Some cur →
  d !! "subject" = None → d !! "key_concept" = None → d !! "prompt" = None →
  d !! "correct_answer" = None → d !! "wrong_answer" = None → d !! "reflection" = None →
  update_mistake i nothing_set st = (inr cur, st)
  ∧ app (PATCH_mistakes_id i (VDict d)) st = (mk_Response 200 (CMistake cur), st).
Proof.
  intros Hcur Hs Hk Hp Hc Hx Hf.
  assert (Hrun : update_mistake i nothing_set st = (inr cur, st)).
  { rewrite (update_mistake_present _ _ cur) by done.
    destruct cur; simpl. rewrite insert_id by done. by rewrite State_eta. }
  split; [done|].
  unfold app, route, body_as. run. unfold MistakeUpdate.validate.
  rewrite Hs, Hk, Hp, Hc, Hx, Hf. simpl. rewrite State_eta.
  fold nothing_set. by rewrite Hrun.
Qed.
End mistake_update.
Section creation.
Context `{Lib}.

(** X6.  A Person written is the Person read: when [POST /persons] answers
    201 with a record, or [PATCH /persons/{id}] answers 200 with one, a
    [get] of that identifier in the state reached returns exactly that
    record. *)
Theorem person_read_after_write (st st' : State) (body : pyval) (i : UUID) (p : PersonRead.t) :
  (app (POST_persons body) st = (mk_Response 201 (CPerson p), st') →
     get_person (PersonRead.id p) st' = (inr p, st'))
  ∧ (app (PATCH_persons_id i body) st = (mk_Response 200 (CPerson p), st') →
       get_person i st' = (inr p, st')).
Proof.
  split.
  - destruct body as [| | | | | |d]; try done.
    destruct (PersonCreate.validate d (world st)) as [[pc|] w] eqn:Hd.
    + rewrite (post_persons_valid _ _ pc w) by done. simpl. intros [= <- <-].
      rewrite get_person_spec. simpl. by rewrite lookup_insert_eq.
    + by rewrite (post_persons_invalid _ _ w).
  - destruct body as [| | | | | |d]; try done.
    unfold app, route, body_as. run.
    destruct (PersonUpdate.validate d (world st)) as [[u|] w] eqn:Hd; simpl; [|done].
    destruct (persons st !! i) as [cur|] eqn:Hi.
    + rewrite (update_person_present _ _ cur) by done. simpl.
      destruct (PersonRead.validate _ w) as [[q|] w1]; simpl; [|done]. intros [= <- <-].
      rewrite get_person_spec. simpl. by rewrite lookup_insert_eq.
    + rewrite update_person_absent by done. done.
Qed.

Lemma required_as_str (o : option pyval) (s : string) :
  required as_str o = Some s ↔ o = Some (VStr s).
Proof.
  destruct o as [[|s'| | | | |]|]; simpl; split; try done; by intros [= ->].
Qed.

Lemma MistakeCreate_validate_ok (d : pydict) (w : World) :
  MistakeCreate_body_ok d ↔ is_Some (MistakeCreate.validate d w).1.
Proof.
  unfold MistakeCreate.validate, MistakeCreate_body_ok, is_text, with_default_factory, pure.
  split.
  - intros (Hid & [s Hs] & [k Hk] & [p Hp] & [c Hc] & [x Hx] & [f Hf]).
    rewrite Hs, Hk, Hp, Hc, Hx, Hf.
    destruct (d !! "id") as [v|]; simpl; [|by eexists].
    destruct (Hid v eq_refl) as [u ->]. simpl. by eexists.
  - intros [m Hm].
    assert (Hid : ∀ v, d !! "id" = Some v → is_Some (as_uuid v)).
    { intros v Hv. rewrite Hv in Hm. simpl in Hm.
      destruct (as_uuid v); [by eexists|done]. }
    split; [exact Hid|]. clear Hid.
    destruct (match d !! "id" with Some v => _ | None => _ end) as [oid w1].
    simpl in Hm. destruct oid as [i|]; simpl in Hm; [|done].
    destruct (required as_str (d !! "subject")) as [s|] eqn:Hs; simpl in Hm; [|done].
    destruct (required as_str (d !! "key_concept")) as [k|] eqn:Hk; simpl in Hm; [|done].
    destruct (required as_str (d !! "prompt")) as [p|] eqn:Hp; simpl in Hm; [|done].
    destruct (required as_str (d !! "correct_answer")) as [c|] eqn:Hc; simpl in Hm; [|done].
    destruct (required as_str (d !! "wrong_answer")) as [x|] eqn:Hx; simpl in Hm; [|done].
    destruct (required as_str (d !! "reflection")) as [f|] eqn:Hf; simpl in Hm; [|done].
    apply required_as_str in Hs, Hk, Hp, Hc, Hx, Hf. repeat split; by eexists.
Qed.

Lemma MistakeCreate_validate_None (d : pydict) (w : World) :
  (MistakeCreate.validate d w).1 = None ↔ ¬ MistakeCreate_body_ok d.
Proof.
  rewrite (MistakeCreate_validate_ok d w).
  destruct (MistakeCreate.validate d w).1 as [m|].
  - split; [done|]. intros Hno. destruct Hno. by eexists.
  - split; [|done]. intros _ [m [=]].
Qed.

(** X10.  [POST /mistakes] answers 422 exactly when the body is not an
    object or does not meet the creation model: one of the six texts is
    missing or is not a string, or an [id] is given that does not read as a
    UUID.  A request answered 422 leaves both dicts as they were. *)
Theorem post_mistakes_unprocessable (st : State) (body : pyval) :
  (status (app (POST_mistakes body) st).1 = 422
     ↔ ∀ d, body = VDict d → ¬ MistakeCreate_body_ok d)
  ∧ (status (app (POST_mistakes body) st).1 = 422 →
       content (app (POST_mistakes body) st).1 = CError RequestValidationError
       ∧ mistakes (app (POST_mistakes body) st).2 = mistakes st
       ∧ persons (app (POST_mistakes body) st).2 = persons st).
Proof.
  destruct body as [| | | | | |d]; try (split; [split; [done|]|]; done).
  pose proof (MistakeCreate_validate_None d (world st)) as Hnone.
  unfold app, route, body_as. run.
  destruct (MistakeCreate.validate d (world st)) as [[mc|] w] eqn:Hd; simpl in *.
  - assert (Hok : MistakeCreate_body_ok d).
    { apply (MistakeCreate_validate_ok d (world st)). rewrite Hd. by eexists. }
    destruct (mistakes st !! MistakeCreate.id mc) as [old|] eqn:Hm.
    + rewrite create_mistake_taken by (simpl; eauto). simpl.
      split; [|done]. split; [done|]. intros Hall. by destruct (Hall d eq_refl).
    + rewrite create_mistake_fresh by done. simpl.
      split; [|done]. split; [done|]. intros Hall. by destruct (Hall d eq_refl).
  - split; [|done]. split; [|done]. intros _ d' [= <-]. by apply Hnone.
Qed.
End creation.
Section identifiers.
Context `{Lib}.



(** X14.  The status of a Mistake request tells what happened to the size
    of the store: a [POST] answered 201 adds one record and any other answer
    adds none; a [DELETE] answered 204 removes one and any other answer
    removes none; a [PATCH] never changes the number of records. *)
Theorem mistake_store_size (st : State) (i : UUID) (body : pyval) :
  let post := app (POST_mistakes body) st in
  let del := app (DELETE_mistakes_id i) st in
  let patch := app (PATCH_mistakes_id i body) st in
  (status post.1 = 201 → size (mistakes post.2) = S (size (mistakes st)))
  ∧ (status post.1 ≠ 201 → mistakes post.2 = mistakes st)
  ∧ (status del.1 = 204 → S (size (mistakes del.2)) = size (mistakes st))
  ∧ (status del.1 ≠ 204 → mistakes del.2 = mistakes st)
  ∧ size (mistakes patch.2) = size (mistakes st).
Proof.
  simpl. split; [|split; [|split; [|split]]].
  - destruct body as [| | | | | |d]; try done.
    unfold app, route, body_as. run.
    destruct (MistakeCreate.validate d (world st)) as [[mc|] w] eqn:Hd; simpl; [|done].
    destruct (mistakes st !! MistakeCreate.id mc) as [old|] eqn:Hm.
    + rewrite create_mistake_taken by (simpl; eauto). done.
    + rewrite create_mistake_fresh by done. simpl. intros _.
      by apply map_size_insert_None.
  - destruct body as [| | | | | |d]; try done.
    unfold app, route, body_as. run.
    destruct (MistakeCreate.validate d (world st)) as [[mc|] w] eqn:Hd; simpl; [|done].
    destruct (mistakes st !! MistakeCreate.id mc) as [old|] eqn:Hm.
    + rewrite create_mistake_taken by (simpl; eauto). done.
    + rewrite create_mistake_fresh by done. done.
  - unfold app, route. rewrite delete_mistake_spec.
    destruct (mistakes st !! i) as [cur|] eqn:Hi; simpl; [|done]. intros _.
    rewrite map_size_delete_Some by eauto.
    assert (size (mistakes st) ≠ 0); [|lia].
    intros Hz. apply map_size_empty_iff in Hz. rewrite Hz in Hi. by rewrite lookup_empty in Hi.
  - unfold app, route. rewrite delete_mistake_spec.
    destruct (mistakes st !! i) as [cur|] eqn:Hi; simpl; done.
  - destruct body as [| | | | | |d]; try done.
    unfold app, route, body_as. run.
    destruct (MistakeUpdate.validate d) as [u|]; simpl; [|done].
    destruct (mistakes st !! i) as [cur|] eqn:Hi.
    + rewrite (update_mistake_present _ _ cur) by done.
      destruct (patched_mistake u cur) as [r'|]; simpl; [|done].
      apply map_size_insert_Some. eauto.
    + rewrite update_mistake_absent by done. done.
Qed.
End identifiers.

(** ** The further properties on the sample data *)

(** X4, on the sample store: A after a [PATCH] of its subject. *)
Lemma mistake_id_created_at_fixed_sample :
  ∃ m',
    mistakes (app (H:=plain_lib) (PATCH_mistakes_id 7 (VDict {["subject" := VStr "X"]}))
                sample_A).2 !! 7%N = Some m'
    ∧ MistakeRead.subject m' = "X"
    ∧ MistakeRead.id m' = MistakeRead.id stored_A
    ∧ MistakeRead.created_at m' = MistakeRead.created_at stored_A.
Proof.
  eexists. split; [vm_compute; reflexivity|]. split; [reflexivity|].
  apply (mistake_id_created_at_fixed (H:=plain_lib)
           (PATCH_mistakes_id 7 (VDict {["subject" := VStr "X"]})) sample_A 7%N stored_A);
    reflexivity.
Defined.

(** X7, on the sample store: two of A's texts replaced, four kept. *)
Lemma update_mistake_fields_sample :
  ∃ r' st',
    update_mistake (H:=plain_lib) 7 two_texts sample_A = (inr r', st')
    ∧ MistakeRead.subject r' = "X"
    ∧ MistakeRead.key_concept r' = "Logical Reasoning"
    ∧ MistakeRead.reflection r' = "seen again".
Proof.
  eexists _, _. split; [vm_compute; reflexivity|].
  match goal with
  | |- MistakeRead.subject ?r = _ ∧ _ =>
      destruct (update_mistake_fields (H:=plain_lib) sample_A
                  (update_mistake (H:=plain_lib) 7 two_texts sample_A).2
                  7%N stored_A r two_texts)
        as (Hs & Hk & _ & _ & _ & Hf & _)
  end; [reflexivity|vm_compute; reflexivity|].
  split; [exact Hs|]. split; [exact Hk|exact Hf].
Defined.

(** X8, on the sample store: [{"subject": null}] is refused. *)
Lemma update_mistake_null_sample :
  update_mistake (H:=plain_lib) 7 null_subject sample_A = (inl ValidationError, sample_A)
  ∧ status (app (H:=plain_lib) (PATCH_mistakes_id 7 (VDict {["subject" := VNone]})) sample_A).1
    = 500.
Proof.
  split; [|reflexivity].
  apply (update_mistake_null (H:=plain_lib) sample_A 7%N stored_A null_subject eq_refl).
  by left.
Defined.

(** X9, on the sample store: a body that only names an [id] changes nothing. *)
Lemma update_mistake_nothing_sample :
  update_mistake (H:=plain_lib) 7 nothing_set sample_A = (inr stored_A, sample_A)
  ∧ app (H:=plain_lib) (PATCH_mistakes_id 7 (VDict {["id" := VUuid 99]})) sample_A =
      (mk_Response 200 (CMistake stored_A), sample_A).
Proof.
  apply (update_mistake_nothing (H:=plain_lib) sample_A 7%N stored_A {["id" := VUuid 99]});
    reflexivity.
Defined.


